(** * feincms.module.medialibrary.models

    A shallow embedding of [feincms/module/medialibrary/models.py]
    (categories, the file-type classifier and [MediaFileBase.save]) together
    with the properties the natural-language specification states about it.

    Conventions of the embedding.
    - A Python string is a [string], a sequence of characters with code
      points below 256. [lower] and the [re.IGNORECASE] flag of a pattern
      compiled without [re.UNICODE] fold the ASCII letters (Python 2, C
      locale). On a text (a [unicode] object, as Django hands out file
      names) [lower()] folds letters outside ASCII as well while the
      pattern flag does not, so the properties that compare the two folds
      are stated for names of ASCII characters ([PyStr.is_ascii]); white
      space is what [unicode.strip()] removes among these code points.
    - The class attribute [filetypes] is a [list] of triples, in list order.
    - Calls that leave the module (PIL, the storage backend, the ORM, the
      logger, the clock) are answered by an environment record of outcomes
      and leave an event in a trace, so that "what save did to the outside
      world" is a value one can state theorems about. The inherited
      [Model.save] also writes on the instance: it assigns the primary key
      when it inserts the row and renames [self.file.name] when it commits
      an upload; the environment says what it leaves in these two fields.
    - A Python exception is a value [Raise e]; mutations made before the
      raise stay in the state, as they do in Python. *)

From Stdlib Require Import ZArith Ascii String Bool Lia.
From stdpp Require Import base option list strings gmap.

Local Open Scope string_scope.
Local Open Scope Z_scope.

(* ===================================================================== *)
(** ** Strings                                                            *)
(* ===================================================================== *)

Module PyStr.

(** [ch.lower()] for one character of a byte string: only A..Z change.
    This is also what [re.IGNORECASE] folds, and what [lower()] does on a
    text of ASCII characters. *)
Definition lower_ascii (c : ascii) : ascii :=
  let n := N_of_ascii c in
  if ((65 <=? n)%N && (n <=? 90)%N)%bool then ascii_of_N (n + 32) else c.

(** [s.lower()] of a byte string, and of a text of ASCII characters. *)
Fixpoint lower (s : string) : string :=
  match s with
  | EmptyString => EmptyString
  | String c s' => String (lower_ascii c) (lower s')
  end.

(** [s.endswith(suffix)]: some tail of [s] is [suffix]. *)
Fixpoint endswith (s suffix : string) : bool :=
  String.eqb s suffix
  || match s with
     | EmptyString => false
     | String _ s' => endswith s' suffix
     end.

(** Truth value of a string: [bool(s)]. *)
Definition truthy (s : string) : bool := negb (String.eqb s "").

(** The line feed, the only character [$] treats specially. *)
Definition LF : ascii := ascii_of_N 10.

(** [sep.join(parts)] *)
Fixpoint join (sep : string) (parts : list string) : string :=
  match parts with
  | [] => ""
  | [x] => x
  | x :: rest => x ++ sep ++ join sep rest
  end.

(** White space as [unicode.strip()] sees it, among the code points below
    256: tab to carriage return, the separators 0x1c to 0x1f, space, the
    next-line control 0x85 and the no-break space 0xa0. *)
Definition is_space (c : ascii) : bool :=
  let n := N_of_ascii c in
  ((9 <=? n)%N && (n <=? 13)%N) || ((28 <=? n)%N && (n <=? 32)%N)
  || (n =? 133)%N || (n =? 160)%N.

(** [s.lstrip()] *)
Fixpoint lstrip (s : string) : string :=
  match s with
  | EmptyString => EmptyString
  | String c s' => if is_space c then lstrip s' else s
  end.

(** [s.rstrip()] *)
Fixpoint rstrip (s : string) : string :=
  match s with
  | EmptyString => EmptyString
  | String c s' =>
      match rstrip s' with
      | EmptyString => if is_space c then EmptyString else String c EmptyString
      | r => String c r
      end
  end.

(** [s.strip()] *)
Definition strip (s : string) : string := rstrip (lstrip s).

(** A string of ASCII characters: on these the methods of a byte string
    and of a text agree. *)
Fixpoint is_ascii (s : string) : bool :=
  match s with
  | EmptyString => true
  | String c s' => (N_of_ascii c <? 128)%N && is_ascii s'
  end.

End PyStr.

(* ===================================================================== *)
(** ** [os.path.basename] on a POSIX system                               *)
(* ===================================================================== *)

Module PosixPath.

(** ['/' in p] *)
Fixpoint has_slash (p : string) : bool :=
  match p with
  | EmptyString => false
  | String c p' => Ascii.eqb c "/" || has_slash p'
  end.

(** [basename(p)]: [p[p.rfind('/') + 1:]], what follows the last slash. *)
Fixpoint basename (p : string) : string :=
  match p with
  | EmptyString => EmptyString
  | String c p' =>
      if has_slash p' then basename p'
      else if Ascii.eqb c "/" then p' else p
  end.

End PosixPath.

(* ===================================================================== *)
(** ** The fragment of [re] the module uses                               *)
(* ===================================================================== *)

Module Re.

Inductive regex : Type :=
| Eps                          (* the empty pattern *)
| Lit (c : ascii)              (* a literal byte, also an escaped one *)
| Set_ (cs : list ascii)       (* [...] without ranges *)
| Cat (r1 r2 : regex)
| Alt (r1 r2 : regex)          (* r1|r2, left alternative first *)
| Opt (r : regex)              (* r?, greedy *)
| Eol.                         (* $ *)

Definition is_meta (c : ascii) : bool :=
  existsb (Ascii.eqb c)
    ["."; "^"; "$"; "*"; "+"; "?"; "{"; "}"; "["; "]"; "\"; "|"; "("; ")"]%char.

Definition is_alnum (c : ascii) : bool :=
  let n := N_of_ascii c in
  ((48 <=? n)%N && (n <=? 57)%N) || ((65 <=? n)%N && (n <=? 90)%N)
  || ((97 <=? n)%N && (n <=? 122)%N).

(** Body of a character set up to the closing bracket; ranges and
    negation are outside the fragment. *)
Fixpoint parse_set (s : string) : option (list ascii * string) :=
  match s with
  | EmptyString => None
  | String "]"%char rest => Some ([], rest)
  | String c rest =>
      if (Ascii.eqb c "-" || Ascii.eqb c "^" || Ascii.eqb c "\")%char then None
      else match parse_set rest with
           | Some (cs, rest') => Some (c :: cs, rest')
           | None => None
           end
  end.

(** Recursive descent over the pattern text; [fuel] bounds the depth. *)
Fixpoint parse_alt (fuel : nat) (s : string) : option (regex * string) :=
  match fuel with
  | O => None
  | S n =>
      match parse_seq n s with
      | Some (r1, String "|"%char rest) =>
          match parse_alt n rest with
          | Some (r2, rest') => Some (Alt r1 r2, rest')
          | None => None
          end
      | other => other
      end
  end
with parse_seq (fuel : nat) (s : string) : option (regex * string) :=
  match fuel with
  | O => None
  | S n =>
      match s with
      | EmptyString => Some (Eps, s)
      | String "|"%char _ => Some (Eps, s)
      | String ")"%char _ => Some (Eps, s)
      | _ =>
          match parse_atom n s with
          | Some (a, rest) =>
              let '(a', rest1) :=
                match rest with
                | String "?"%char r => (Opt a, r)
                | _ => (a, rest)
                end in
              match parse_seq n rest1 with
              | Some (r, rest2) => Some (Cat a' r, rest2)
              | None => None
              end
          | None => None
          end
      end
  end
with parse_atom (fuel : nat) (s : string) : option (regex * string) :=
  match fuel with
  | O => None
  | S n =>
      match s with
      | EmptyString => None
      | String "\"%char (String c rest) =>
          if is_alnum c then None else Some (Lit c, rest)
      | String "("%char rest =>
          match parse_alt n rest with
          | Some (r, String ")"%char rest') => Some (r, rest')
          | _ => None
          end
      | String "["%char rest =>
          match parse_set rest with
          | Some (cs, rest') => Some (Set_ cs, rest')
          | None => None
          end
      | String "$"%char rest => Some (Eol, rest)
      | String c rest => if is_meta c then None else Some (Lit c, rest)
      end
  end.

(** [re.compile(pattern)]; [None] when the pattern leaves the fragment. *)
Definition compile (pattern : string) : option regex :=
  match parse_alt (4 * String.length pattern + 4) pattern with
  | Some (r, EmptyString) => Some r
  | _ => None
  end.

Definition eq_char (ignorecase : bool) (p c : ascii) : bool :=
  if ignorecase
  then Ascii.eqb (PyStr.lower_ascii p) (PyStr.lower_ascii c)
  else Ascii.eqb p c.

(** [$] without [re.MULTILINE]: at the end of the string, or just before
    a line feed that is the last character. *)
Definition at_end (s : string) : bool :=
  match s with
  | EmptyString => true
  | String c EmptyString => Ascii.eqb c PyStr.LF
  | _ => false
  end.

(** Backtracking matcher: [k] is what still has to match the rest. *)
Fixpoint match_here (ic : bool) (r : regex) (s : string)
         (k : string -> bool) : bool :=
  match r with
  | Eps => k s
  | Lit p =>
      match s with
      | String c s' => eq_char ic p c && k s'
      | EmptyString => false
      end
  | Set_ cs =>
      match s with
      | String c s' => existsb (fun p => eq_char ic p c) cs && k s'
      | EmptyString => false
      end
  | Cat r1 r2 => match_here ic r1 s (fun s' => match_here ic r2 s' k)
  | Alt r1 r2 => match_here ic r1 s k || match_here ic r2 s k
  | Opt r1 => match_here ic r1 s k || k s
  | Eol => at_end s && k s
  end.

(** [regex.search(s)] as a truth value: a match at some start offset. *)
Fixpoint search_from (ic : bool) (r : regex) (s : string) : bool :=
  match_here ic r s (fun _ => true)
  || match s with
     | EmptyString => false
     | String _ s' => search_from ic r s'
     end.

(** [re.compile(pattern, flags).search(s)] as a truth value. *)
Definition search (ignorecase : bool) (pattern s : string) : bool :=
  match compile pattern with
  | Some r => search_from ignorecase r s
  | None => false
  end.

End Re.


(* ===================================================================== *)
(** ** Exceptions, effects and the monad of a method call                 *)
(* ===================================================================== *)

(** The exception classes the module names in an [except] clause, the
    [IndexError] of list indexing, and [OtherError] for every class that is
    a subclass of none of them. *)
Inductive exn : Type :=
| OSError | IOError | ValueError | AttributeError | KeyError | IndexError
| OtherError.

#[global] Instance exn_eq_dec : EqDecision exn.
Proof. solve_decision. Defined.

Inductive result (A : Type) : Type :=
| Ok (a : A)
| Raise (e : exn).
Arguments Ok {A} a.
Arguments Raise {A} e.

(** Calls that reach outside the module, in the order they are made. An
    event records that the call was made, whatever its outcome. *)
Inductive event : Type :=
| EvLogError                       (* logging.error(...) *)
| EvRotate (degrees : Z)           (* image.rotate(rotation) *)
| EvImageSave (path : string)      (* image.save(self.file.path) *)
| EvStorageDelete (name : string)  (* self.file.storage.delete(name) *)
| EvModelSave                      (* the inherited Model.save *)
| EvPurgeTranslationCache.         (* self.purge_translation_cache() *)

#[global] Instance event_eq_dec : EqDecision event.
Proof. solve_decision. Defined.

Module Py.
Section Monad.
Context {Obj : Type}.

(** A method body: it reads and mutates [self], appends to the trace of
outside calls, and returns or raises. *)
Definition M (A : Type) : Type := Obj * list event -> result A * (Obj * list event).

Definition ret {A} (a : A) : M A := fun s => (Ok a, s).

Definition bind {A B} (m : M A) (k : A -> M B) : M B :=
fun s => match m s with
       | (Ok a, s') => k a s'
       | (Raise e, s') => (Raise e, s')
       end.

Definition raise {A} (e : exn) : M A := fun s => (Raise e, s).

(** The outcome of an outside call, supplied by the environment. *)
Definition lift {A} (r : result A) : M A := fun s => (r, s).

Definition self : M Obj := fun s => (Ok (fst s), s).

Definition modify (f : Obj -> Obj) : M unit :=
fun s => (Ok tt, (f (fst s), snd s)).

Definition emit (ev : event) : M unit :=
fun s => (Ok tt, (fst s, (snd s ++ [ev])%list)).

(** [isinstance(e, classes)] for a tuple of classes of an except clause. *)
Definition is_a (e : exn) (classes : list exn) : bool :=
bool_decide (e ∈ classes).

(** [try: body  except classes, e: handler(e)] *)
Definition try_except {A} (body : M A) (classes : list exn)
       (handler : exn -> M A) : M A :=
fun s => match body s with
       | (Raise e, s') =>
           if is_a e classes then handler e s' else (Raise e, s')
       | r => r
       end.

(** [if cond: body] with no else branch. *)
Definition when (cond : bool) (body : M unit) : M unit :=
if cond then body else ret tt.

End Monad.
Arguments M : clear implicits.
End Py.

Declare Scope py_scope.
Delimit Scope py_scope with py.
Notation "x <- m ;; k" := (Py.bind m (fun x => k))
  (at level 100, m at next level, right associativity) : py_scope.
Notation "m ;;; k" := (Py.bind m (fun _ => k))
  (at level 100, k at level 200, right associativity) : py_scope.


Local Open Scope py_scope.

(* ===================================================================== *)
(** ** class Category                                                     *)
(* ===================================================================== *)

Module Category.

(** The fields of a category; [parent] is the optional self-reference. *)
#[local] Unset Elimination Schemes.
Inductive t : Type :=
  Build (title : string) (parent : option t) (slug : string).

#[local] Set Elimination Schemes.

Definition title (c : t) : string := let 'Build x _ _ := c in x.
Definition parent (c : t) : option t := let 'Build _ p _ := c in p.
Definition slug (c : t) : string := let 'Build _ _ x := c in x.

Definition set_slug (v : string) (c : t) : t :=
  Build (title c) (parent c) v.

Section Save.
(** [django.template.defaultfilters.slugify] belongs to the framework. *)
Variable slugify : string -> string.
(** Outcome of the inherited [Model.save]. *)
Variable super_save : result unit.

(** [Category.save] *)
Definition save : Py.M t unit :=
  self <- Py.self ;;
  Py.when (negb (PyStr.truthy (slug self)))
    (Py.modify (set_slug (slugify (title self)))) ;;;
  Py.emit EvModelSave ;;;
  Py.lift super_save.
End Save.

(** The object as [save] leaves it. *)
Definition saved (slugify : string -> string) (super_save : result unit)
           (c : t) : t :=
  fst (snd (save slugify super_save (c, []))).

(** [Category.path_list]: the list of the parent, with [self] appended. *)
Fixpoint path_list (c : t) : list t :=
  match c with
  | Build _ None _ => [c]
  | Build _ (Some p) _ => (path_list p ++ [c])%list
  end.

(** [Category.path] *)
Definition path (c : t) : string :=
  PyStr.join " - " (map title (path_list c)).

End Category.

(* ===================================================================== *)
(** ** class MediaFileBase                                                *)
(* ===================================================================== *)

Module MediaFileBase.

(** One rule of the registry: [(type_key, type_name, type_test)]. *)
Definition filetype : Type := string * string * (string -> bool).

Definition type_key (ft : filetype) : string := fst (fst ft).
Definition type_name (ft : filetype) : string := snd (fst ft).
Definition type_test (ft : filetype) : string -> bool := snd ft.

(** The class attributes that [register_filetypes] maintains. *)
Record Class : Type := {
  filetypes : list filetype;
  filetypes_dict : gmap string string;
  type_choices : list (string * string)   (* _meta.get_field('type').choices *)
}.

(** [filetypes = [ ]], [filetypes_dict = { }], [choices=()] *)
Definition initial : Class :=
  {| filetypes := []; filetypes_dict := ∅; type_choices := [] |}.

(** [dict(pairs)]: a later pair with the same key replaces an earlier one. *)
Definition dict (pairs : list (string * string)) : gmap string string :=
  foldl (fun m kv => <[fst kv := snd kv]> m) ∅ pairs.

(** [register_filetypes(cls, *types)]: the slice assignment
    [cls.filetypes[0:0] = types] inserts [types] before everything that is
    already there. *)
Definition register_filetypes (cls : Class) (types : list filetype) : Class :=
  let filetypes' := (types ++ filetypes cls)%list in
  let choices := map (fun t => (type_key t, type_name t)) filetypes' in
  {| filetypes := filetypes';
     filetypes_dict := dict choices;
     type_choices := choices |}.

(** The [for] loop of [determine_file_type]: the key of the first rule
    whose test accepts [name], if the loop returns at all. *)
Fixpoint first_match (fts : list filetype) (name : string) : option string :=
  match fts with
  | [] => None
  | (type_key, type_name, type_test) :: rest =>
      if type_test name then Some type_key else first_match rest name
  end.

(** [self.filetypes[-1][0]]; indexing an empty list raises. *)
Definition last_key (fts : list filetype) : result string :=
  match last fts with
  | Some ft => Ok (type_key ft)
  | None => Raise IndexError
  end.

(** [determine_file_type(self, name)] *)
Definition determine_file_type (cls : Class) (name : string) : result string :=
  match first_match (filetypes cls) name with
  | Some type_key => Ok type_key
  | None => last_key (filetypes cls)
  end.

(** The rules registered at import time, in source order. *)
Definition default_filetypes : list filetype :=
  [ ("image", "Image",
      fun f => Re.search true "\.(bmp|jpe?g|jp2|jxr|gif|png|tiff?)$" f);
    ("video", "Video",
      fun f => Re.search true "\.(mov|m[14]v|mp4|avi|mpe?g|qt|ogv|wmv)$" f);
    ("audio", "Audio",
      fun f => Re.search true "\.(au|mp3|m4a|wma|oga|ram|wav)$" f);
    ("pdf", "PDF document", fun f => PyStr.endswith (PyStr.lower f) ".pdf");
    ("swf", "Flash", fun f => PyStr.endswith (PyStr.lower f) ".swf");
    ("txt", "Text", fun f => PyStr.endswith (PyStr.lower f) ".txt");
    ("rtf", "Rich Text", fun f => PyStr.endswith (PyStr.lower f) ".rtf");
    ("zip", "Zip archive", fun f => PyStr.endswith (PyStr.lower f) ".zip");
    ("doc", "Microsoft Word", fun f => Re.search true "\.docx?$" f);
    ("xls", "Microsoft Excel", fun f => Re.search true "\.xlsx?$" f);
    ("ppt", "Microsoft PowerPoint", fun f => Re.search true "\.pptx?$" f);
    ("other", "Binary", fun f => true) ].

(** The class after the module has been imported:
    [MediaFileBase.register_filetypes(...)] at module level. *)
Definition imported : Class := register_filetypes initial default_filetypes.

(** *** Instances *)

(** The fields of an instance that the module reads or writes. *)
Record t : Type := {
  id : option Z;
  file_name : string;                    (* self.file.name *)
  type : string;
  created : option Z;
  copyright : string;
  file_size : option Z;
  _original_file_name : option string    (* absent until __init__ sets it *)
}.

Definition set_type (v : string) (o : t) : t :=
  {| id := id o; file_name := file_name o; type := v; created := created o;
     copyright := copyright o; file_size := file_size o;
     _original_file_name := _original_file_name o |}.

Definition set_created (v : option Z) (o : t) : t :=
  {| id := id o; file_name := file_name o; type := type o; created := v;
     copyright := copyright o; file_size := file_size o;
     _original_file_name := _original_file_name o |}.

Definition set_file_size (v : option Z) (o : t) : t :=
  {| id := id o; file_name := file_name o; type := type o;
     created := created o; copyright := copyright o; file_size := v;
     _original_file_name := _original_file_name o |}.

Definition set_id (v : option Z) (o : t) : t :=
  {| id := v; file_name := file_name o; type := type o; created := created o;
     copyright := copyright o; file_size := file_size o;
     _original_file_name := _original_file_name o |}.

Definition set_file_name (v : string) (o : t) : t :=
  {| id := id o; file_name := v; type := type o; created := created o;
     copyright := copyright o; file_size := file_size o;
     _original_file_name := _original_file_name o |}.

(** [__init__]: the field values come from the framework's constructor;
    the original name is remembered only [if self.file]. *)
Definition __init__ (id : option Z) (file_name type : string)
           (created : option Z) (copyright : string) (file_size : option Z) : t :=
  {| id := id; file_name := file_name; type := type; created := created;
     copyright := copyright; file_size := file_size;
     _original_file_name :=
       if PyStr.truthy file_name then Some file_name else None |}.

(** What PIL hands back from [Image.open] and how that image answers the
    three calls [save] makes on it. *)
Record Image : Type := {
  image_truthy : bool;                       (* bool(image) *)
  _getexif : result (option (gmap Z Z));     (* image._getexif() *)
  rotate : Z -> result unit;                 (* image.rotate(rotation) *)
  image_save : string -> result unit         (* rotated image .save(path) *)
}.

(** The answers of the outside world during one call of [save]. *)
Record Env : Type := {
  now : Z;                                   (* datetime.now() *)
  file_size_read : result Z;                 (* self.file.size *)
  image_open_file : result Image;            (* Image.open(self.file) *)
  file_path : result string;                 (* self.file.path *)
  image_open_path : string -> result Image;  (* Image.open(path) *)
  storage_delete : string -> result unit;    (* storage.delete(name) *)
  super_save : result unit;                  (* the inherited Model.save *)
  saved_id : option Z -> option Z;           (* self.id once that call is over *)
  saved_file_name : string -> string         (* self.file.name once it is over *)
}.

Definition is_Some_b {A} (x : option A) : bool :=
  match x with Some _ => true | None => false end.

(** [not self.id]: an absent or zero primary key. *)
Definition id_truthy (i : option Z) : bool :=
  match i with Some n => negb (n =? 0) | None => false end.

(** [if exif:] for the value of [image._getexif()], or [False]. *)
Definition exif_truthy (exif : option (gmap Z Z)) : bool :=
  match exif with Some d => bool_decide (d ≠ ∅) | None => false end.

(** [exif.get(274)] *)
Definition exif_get (exif : option (gmap Z Z)) (tag : Z) : option Z :=
  match exif with Some d => d !! tag | None => None end.

(** The [if]/[elif] chain on [orientation], starting from [rotation = 0]. *)
Definition rotation_for (orientation : option Z) : Z :=
  match orientation with
  | Some 3 => 180
  | Some 6 => 270
  | Some 8 => 90
  | _ => 0
  end.

Section Save.
Variable cls : Class.
Variable env : Env.

(** Lines 182-185: open by handle, and by path when that fails. *)
Definition open_image : Py.M t Image :=
  Py.try_except (Py.lift (image_open_file env)) [OSError; IOError]
    (fun _ => path <- Py.lift (file_path env) ;;
              Py.lift (image_open_path env path)).

(** Lines 188-209: "Rotate image based on exif data." The two [except]
    clauses of the inner [try] both set [exif = False] and cannot raise, so
    they are written as two nested handlers. *)
Definition rotate_image (image : Image) : Py.M t unit :=
  Py.when (image_truthy image)
    (exif <- Py.try_except
               (Py.try_except (Py.lift (_getexif image))
                  [AttributeError; IOError] (fun _ => Py.ret None))
               [KeyError] (fun _ => Py.ret None) ;;
     Py.when (exif_truthy exif)
       (let orientation := exif_get exif 274 in
        let rotation := rotation_for orientation in
        Py.when (negb (rotation =? 0))
          (Py.emit (EvRotate rotation) ;;;
           Py.lift (rotate image rotation) ;;;
           path <- Py.lift (file_path env) ;;
           Py.emit (EvImageSave path) ;;;
           Py.lift (image_save image path)))).

(** Lines 181-209: the body of the outer [try]. *)
Definition rotate_by_exif : Py.M t unit :=
  image <- open_image ;;
  rotate_image image.

(** Lines 180-211: "Try to detect things that are not really images". *)
Definition check_image : Py.M t unit :=
  self <- Py.self ;;
  Py.when (String.eqb (type self) "image")
    (Py.try_except rotate_by_exif [OSError; IOError]
       (fun _ => type_key <- Py.lift (determine_file_type cls "***") ;;
                 Py.modify (set_type type_key))).

(** Lines 173-177: the best-effort size. *)
Definition read_size : Py.M t unit :=
  self <- Py.self ;;
  Py.when (PyStr.truthy (file_name self))
    (Py.try_except
       (size <- Py.lift (file_size_read env) ;;
        Py.modify (set_file_size (Some size)))
       [OSError; IOError; ValueError]
       (fun _ => Py.emit EvLogError)).

(** Lines 213-215: delete the file this object was loaded with. *)
Definition cleanup : Py.M t unit :=
  self <- Py.self ;;
  match _original_file_name self with
  | Some original =>
      Py.when (PyStr.truthy original)
        (Py.when (negb (String.eqb (file_name self) original))
           (Py.emit (EvStorageDelete original) ;;;
            Py.lift (storage_delete env original)))
  | None => Py.ret tt
  end.

(** What the inherited [Model.save] writes on the instance: the primary
    key (assigned when the row is inserted) and the file name (an upload is
    stored under the name the storage gives it). *)
Definition inherited_writes (o : t) : t :=
  set_id (saved_id env (id o))
    (set_file_name (saved_file_name env (file_name o)) o).

(** Line 217: the call of the inherited [Model.save]. It returns or raises;
    what it has written on the instance by then is the environment's
    answer in either case. *)
Definition inherited_save : Py.M t unit :=
  Py.emit EvModelSave ;;;
  Py.modify inherited_writes ;;;
  Py.lift (super_save env).

(** [MediaFileBase.save] *)
Definition save : Py.M t unit :=
  self <- Py.self ;;
  Py.when (negb (id_truthy (id self)) && negb (is_Some_b (created self)))
    (Py.modify (set_created (Some (now env)))) ;;;
  type_key <- Py.lift (determine_file_type cls (file_name self)) ;;
  Py.modify (set_type type_key) ;;;
  read_size ;;;
  check_image ;;;
  cleanup ;;;
  inherited_save ;;;
  Py.emit EvPurgeTranslationCache.
End Save.

(** [MediaFileTranslation]: "Translated media file caption and
    description." *)
Record MediaFileTranslation : Type := {
  caption : string;
  description : string
}.

(** [MediaFileTranslation.__unicode__] *)
Definition translation_unicode (trans : MediaFileTranslation) : string :=
  caption trans.

(** What reading [self.translation] can do: hand back a translation or
    [None], raise [ObjectDoesNotExist], or raise something else. *)
Inductive translation_lookup : Type :=
| Translation_is (trans : option MediaFileTranslation)
| Translation_does_not_exist
| Translation_raises (e : exn).

(** [MediaFileBase.__unicode__] *)
Definition __unicode__ (translation : translation_lookup) (self : t)
  : result string :=
  let fallback := Ok (PosixPath.basename (file_name self)) in
  match translation with
  | Translation_is (Some trans) =>
      let text := translation_unicode trans in
      if PyStr.truthy (PyStr.strip text) then Ok text else fallback
  | Translation_is None => fallback
  | Translation_does_not_exist => fallback
  | Translation_raises e =>
      if Py.is_a e [AttributeError] then fallback else Raise e
  end.

End MediaFileBase.

(* ===================================================================== *)
(** ** Vocabulary of the statements                                       *)
(* ===================================================================== *)

Local Open Scope list_scope.

(** The three components of what a method call leaves behind. *)
Definition outcome {Obj A} (r : result A * (Obj * list event)) : result A :=
  fst r.
Definition object_after {Obj A} (r : result A * (Obj * list event)) : Obj :=
  fst (snd r).
Definition trace_after {Obj A} (r : result A * (Obj * list event)) : list event :=
  snd (snd r).

(** The names handed to [storage.delete], in call order. *)
Definition deletes (tr : list event) : list string :=
  omap (fun ev => match ev with EvStorageDelete n => Some n | _ => None end) tr.

(** The calls [save] makes on the opened image. *)
Definition is_image_event (ev : event) : bool :=
  match ev with EvRotate _ | EvImageSave _ => true | _ => false end.

Definition image_events (tr : list event) : list event :=
  filter (fun ev => is_image_event ev = true) tr.

(** A method body that moves the object only along [I] and makes only
    outside calls that satisfy [E]. *)
Definition preserves {Obj A} (I : relation Obj) (E : event -> Prop)
           (m : Py.M Obj A) : Prop :=
  forall s, I (fst s) (object_after (m s))
            /\ exists l, trace_after (m s) = snd s ++ l /\ Forall E l.

(** Two instances that differ at most in [file_size], at most in [type],
    and that agree on the file name and on the remembered original name. *)
Definition only_file_size (o o' : MediaFileBase.t) : Prop :=
  o' = MediaFileBase.set_file_size (MediaFileBase.file_size o') o.

Definition only_type (o o' : MediaFileBase.t) : Prop :=
  o' = MediaFileBase.set_type (MediaFileBase.type o') o.

Definition same_file (o o' : MediaFileBase.t) : Prop :=
  MediaFileBase.file_name o' = MediaFileBase.file_name o
  /\ MediaFileBase._original_file_name o'
     = MediaFileBase._original_file_name o.

(** Two instances that differ at most in the primary key and the file
    name, the two fields the inherited save writes. *)
Definition only_id_and_name (o o' : MediaFileBase.t) : Prop :=
  o' = MediaFileBase.set_id (MediaFileBase.id o')
         (MediaFileBase.set_file_name (MediaFileBase.file_name o') o).

(** The same, the type apart. *)
Definition only_type_id_name (o o' : MediaFileBase.t) : Prop :=
  o' = MediaFileBase.set_type (MediaFileBase.type o')
         (MediaFileBase.set_id (MediaFileBase.id o')
            (MediaFileBase.set_file_name (MediaFileBase.file_name o') o)).

(** Two instances that remember the same original file name. *)
Definition same_original (o o' : MediaFileBase.t) : Prop :=
  MediaFileBase._original_file_name o'
  = MediaFileBase._original_file_name o.

(** [self.file.size] either succeeds or raises what [save] catches. *)
Definition size_error_caught (env : MediaFileBase.Env) : bool :=
  match MediaFileBase.file_size_read env with
  | Ok _ => true
  | Raise e => Py.is_a e [OSError; IOError; ValueError]
  end.

(** The same environment with another answer to [self.file.size]. *)
Definition with_file_size_read (r : result Z) (env : MediaFileBase.Env)
  : MediaFileBase.Env :=
  {| MediaFileBase.now := MediaFileBase.now env;
     MediaFileBase.file_size_read := r;
     MediaFileBase.image_open_file := MediaFileBase.image_open_file env;
     MediaFileBase.file_path := MediaFileBase.file_path env;
     MediaFileBase.image_open_path := MediaFileBase.image_open_path env;
     MediaFileBase.storage_delete := MediaFileBase.storage_delete env;
     MediaFileBase.super_save := MediaFileBase.super_save env;
     MediaFileBase.saved_id := MediaFileBase.saved_id env;
     MediaFileBase.saved_file_name := MediaFileBase.saved_file_name env |}.

(** [Image.open] hands back [img], by handle or, after an [OSError] or
    [IOError] of the first attempt, by path. *)
Definition opens_as (env : MediaFileBase.Env) (img : MediaFileBase.Image) : Prop :=
  MediaFileBase.image_open_file env = Ok img
  \/ exists e path,
      MediaFileBase.image_open_file env = Raise e
      /\ Py.is_a e [OSError; IOError] = true
      /\ MediaFileBase.file_path env = Ok path
      /\ MediaFileBase.image_open_path env path = Ok img.

(** Sample objects and environments for the concrete instances below. *)
Module Sample.
Import MediaFileBase.

(** The database gives a new row the primary key 1. *)
Definition assigned_id (i : option Z) : option Z :=
  match i with Some _ => i | None => Some 1 end.

(** An image that opens, carries the given EXIF dictionary and can be
    rotated and written back. *)
Definition image_with (exif : option (gmap Z Z)) : Image :=
  {| image_truthy := true; _getexif := Ok exif;
     rotate := fun _ => Ok tt; image_save := fun _ => Ok tt |}.

(** A storage in which everything works and the file is the image [img]. *)
Definition env_with (img : Image) : Env :=
  {| now := 1300000000; file_size_read := Ok 2048;
     image_open_file := Ok img; file_path := Ok "/media/picture.jpg";
     image_open_path := fun _ => Ok img;
     storage_delete := fun _ => Ok tt; super_save := Ok tt;
     saved_id := assigned_id; saved_file_name := fun name => name |}.

(** The same storage when the file is a new upload: the inherited save
    commits it, and the storage puts it under the name [stored_as]. *)
Definition env_upload (img : Image) (stored_as : string) : Env :=
  {| now := 1300000000; file_size_read := Ok 2048;
     image_open_file := Ok img; file_path := Ok "/media/picture.jpg";
     image_open_path := fun _ => Ok img;
     storage_delete := fun _ => Ok tt; super_save := Ok tt;
     saved_id := assigned_id; saved_file_name := fun _ => stored_as |}.

(** The file is no image at all: PIL raises [IOError] on both attempts. *)
Definition env_not_an_image : Env :=
  {| now := 1300000000; file_size_read := Ok 2048;
     image_open_file := Raise IOError; file_path := Ok "/media/picture.jpg";
     image_open_path := fun _ => Raise IOError;
     storage_delete := fun _ => Ok tt; super_save := Ok tt;
     saved_id := assigned_id; saved_file_name := fun name => name |}.

(** A non-image file whose size cannot be read. *)
Definition env_size_unreadable : Env :=
  {| now := 1300000000; file_size_read := Raise OSError;
     image_open_file := Raise IOError; file_path := Ok "/media/notes.txt";
     image_open_path := fun _ => Raise IOError;
     storage_delete := fun _ => Ok tt; super_save := Ok tt;
     saved_id := assigned_id; saved_file_name := fun name => name |}.

(** A record built without a file, then given one. *)
Definition fresh (name : string) : t :=
  set_file_name name (__init__ None "" "" None "" None).

(** A record loaded from the database with its stored file. *)
Definition stored (name type : string) (size : option Z) : t :=
  __init__ (Some 7) name type (Some 1200000000) "" size.

(** PIL refuses the file with an exception [save] has no handler for. *)
Definition env_open_raises (e : exn) : Env :=
  {| now := 1300000000; file_size_read := Ok 2048;
     image_open_file := Raise e; file_path := Ok "/media/picture.jpg";
     image_open_path := fun _ => Raise e;
     storage_delete := fun _ => Ok tt; super_save := Ok tt;
     saved_id := assigned_id; saved_file_name := fun name => name |}.

(** An image that opens but whose EXIF block makes PIL raise [KeyError]. *)
Definition image_exif_error : Image :=
  {| image_truthy := true; _getexif := Raise KeyError;
     rotate := fun _ => Ok tt; image_save := fun _ => Ok tt |}.

End Sample.

(** The statements of [save] that follow the image check (lines 213-218);
    it names the point from which a save "goes on". *)
Definition after_check (env : MediaFileBase.Env) : Py.M MediaFileBase.t unit :=
  MediaFileBase.cleanup env ;;;
  MediaFileBase.inherited_save env ;;;
  Py.emit EvPurgeTranslationCache.

(** The object as [save] assigns [created] on it (lines 169-170). *)
Definition with_created (env : MediaFileBase.Env) (o : MediaFileBase.t)
  : MediaFileBase.t :=
  if negb (MediaFileBase.id_truthy (MediaFileBase.id o))
     && negb (MediaFileBase.is_Some_b (MediaFileBase.created o))
  then MediaFileBase.set_created (Some (MediaFileBase.now env)) o
  else o.

(** The names [cleanup] has to delete for an instance: the remembered
    original name when it is set and differs from the current one. *)
Definition superseded (o : MediaFileBase.t) : list string :=
  match MediaFileBase._original_file_name o with
  | Some original =>
      if PyStr.truthy original
         && negb (String.eqb (MediaFileBase.file_name o) original)
      then [original] else []
  | None => []
  end.

(** An EXIF dictionary that holds only the orientation tag. *)
Definition oriented (orientation : Z) : option (gmap Z Z) :=
  Some {[ 274 := orientation ]}.

(** A method body whose outcome does not depend on the state it starts
    from. *)
Definition stateless {Obj A} (m : Py.M Obj A) : Prop :=
  forall s s', outcome (m s) = outcome (m s').

(** The test of rule [ft] turns [name] down. *)
Definition rejects (name : string) (ft : MediaFileBase.filetype) : Prop :=
  MediaFileBase.type_test ft name = false.

(** A caller that keeps one instance and saves it again and again, each
    time after assigning a file name, whatever the previous save did. *)
Fixpoint resave (cls : MediaFileBase.Class)
         (steps : list (MediaFileBase.Env * string))
         (s : MediaFileBase.t * list event) : MediaFileBase.t * list event :=
  match steps with
  | [] => s
  | (env, name) :: rest =>
      resave cls rest
        (snd (MediaFileBase.save cls env
                (MediaFileBase.set_file_name name (fst s), snd s)))
  end.

(** A model of Django's [slugify] filter on ASCII text: keep letters,
    digits, underscore, hyphen and white space, strip, lower-case, then turn
    every run of hyphens and white space into one hyphen. It only serves to
    instantiate the [slugify] parameter of [Category.save]. *)
Module Slugify.

Definition is_space (c : ascii) : bool :=
  let n := N_of_ascii c in ((9 <=? n)%N && (n <=? 13)%N) || (n =? 32)%N.

Definition is_word (c : ascii) : bool :=
  Re.is_alnum c || Ascii.eqb c "_".

Definition is_sep (c : ascii) : bool := is_space c || Ascii.eqb c "-".

Definition keep (c : ascii) : bool := is_word c || is_sep c.

Fixpoint lstrip (l : list ascii) : list ascii :=
  match l with
  | c :: l' => if is_space c then lstrip l' else l
  | [] => []
  end.

Definition strip (l : list ascii) : list ascii :=
  rev (lstrip (rev (lstrip l))).

(** [in_run] tells whether the previous character was a separator. *)
Fixpoint squeeze (in_run : bool) (l : list ascii) : list ascii :=
  match l with
  | [] => []
  | c :: l' =>
      if is_sep c
      then if in_run then squeeze true l' else "-"%char :: squeeze true l'
      else c :: squeeze false l'
  end.

Definition slugify (value : string) : string :=
  let kept := filter (fun c => keep c = true) (list_ascii_of_string value) in
  let lowered := map PyStr.lower_ascii (strip kept) in
  string_of_list_ascii (squeeze false lowered).

End Slugify.

(** Two instances that agree on everything but [type] and [file_size]. *)
Definition only_type_and_size (o o' : MediaFileBase.t) : Prop :=
  o' = MediaFileBase.set_type (MediaFileBase.type o')
         (MediaFileBase.set_file_size (MediaFileBase.file_size o') o).

(** The calls the rotation block can make: none, a rotation by a
    non-zero angle, or that rotation followed by one write. *)
Definition rotation_calls (l : list event) : Prop :=
  l = []
  \/ exists r, r <> 0
               /\ (l = [EvRotate r] \/ exists p, l = [EvRotate r; EvImageSave p]).

(** *** Reading a pattern as a list of suffixes *)

(** A pattern without [$]. *)
Fixpoint eol_free (r : Re.regex) : bool :=
  match r with
  | Re.Eol => false
  | Re.Cat r1 r2 | Re.Alt r1 r2 => eol_free r1 && eol_free r2
  | Re.Opt r1 => eol_free r1
  | _ => true
  end.

(** The words of a pattern without [$], alternatives in pattern order. *)
Fixpoint words (r : Re.regex) : list string :=
  match r with
  | Re.Eps => [""]
  | Re.Lit c => [String c ""]
  | Re.Set_ cs => map (fun c => String c "") cs
  | Re.Cat r1 r2 =>
      flat_map (fun w1 => map (fun w2 => (w1 ++ w2)%string) (words r2)) (words r1)
  | Re.Alt r1 r2 => words r1 ++ words r2
  | Re.Opt r1 => words r1 ++ [""]
  | Re.Eol => []
  end.

(** [s] starts with [w], letter case apart. *)
Fixpoint starts_ci (w s : string) : bool :=
  match w, s with
  | EmptyString, _ => true
  | String p w', String c s' => Re.eq_char true p c && starts_ci w' s'
  | String _ _, EmptyString => false
  end.

(** [s[n:]] *)
Fixpoint skip (n : nat) (s : string) : string :=
  match n, s with
  | O, _ => s
  | S n', String _ s' => skip n' s'
  | S _, EmptyString => EmptyString
  end.

(** The one-character string of a line feed. *)
Definition nl : string := String PyStr.LF "".

(** The words of a pattern that is a sequence without [$] followed by one
    final [$]; [None] for a pattern of another shape. *)
Fixpoint dollar_words (r : Re.regex) : option (list string) :=
  match r with
  | Re.Cat a rest =>
      if eol_free a
      then match dollar_words rest with
           | Some ws =>
               Some (flat_map (fun w1 => map (fun w2 => (w1 ++ w2)%string) ws)
                       (words a))
           | None => None
           end
      else match a, rest with
           | Re.Eol, Re.Eps => Some [""]
           | _, _ => None
           end
  | _ => None
  end.

(** The lower-cased name ends in one of the suffixes. *)
Definition ends_in (suffixes : list string) (f : string) : bool :=
  existsb (PyStr.endswith (PyStr.lower f)) suffixes.

(** The suffixes a pattern [\.(e1|e2|...)$] accepts: a dot and an extension,
    at the very end or before one final line feed. *)
Definition dollar_suffixes (exts : list string) : list string :=
  flat_map (fun e => [("." ++ e)%string; ("." ++ e ++ nl)%string]) exts.

(** The suffixes of the eleven specific default rules, in registry order. *)
Definition default_suffixes : list (list string) :=
  [ dollar_suffixes
      ["bmp"; "jpeg"; "jpg"; "jp2"; "jxr"; "gif"; "png"; "tiff"; "tif"];
    dollar_suffixes
      ["mov"; "m1v"; "m4v"; "mp4"; "avi"; "mpeg"; "mpg"; "qt"; "ogv"; "wmv"];
    dollar_suffixes ["au"; "mp3"; "m4a"; "wma"; "oga"; "ram"; "wav"];
    [".pdf"]; [".swf"]; [".txt"]; [".rtf"]; [".zip"];
    dollar_suffixes ["docx"; "doc"];
    dollar_suffixes ["xlsx"; "xls"];
    dollar_suffixes ["pptx"; "ppt"] ].

(** No suffix of one list is a suffix of a suffix of the other. *)
Definition incomparable (s1 s2 : list string) : bool :=
  forallb (fun a => forallb (fun b => negb (PyStr.endswith a b)
                                      && negb (PyStr.endswith b a)) s2) s1.

Fixpoint all_incomparable (l : list (list string)) : bool :=
  match l with
  | [] => true
  | s1 :: rest => forallb (incomparable s1) rest && all_incomparable rest
  end.

(** ['.' in s] *)
Fixpoint has_dot (s : string) : bool :=
  match s with
  | EmptyString => false
  | String c s' => Ascii.eqb c "." || has_dot s'
  end.

(** *** Categories and captions *)

(** The number of ancestors of a category. *)
Fixpoint category_depth (c : Category.t) : nat :=
  match c with
  | Category.Build _ None _ => O
  | Category.Build _ (Some p) _ => S (category_depth p)
  end.

(** The ancestor that has no parent. *)
Fixpoint category_root (c : Category.t) : Category.t :=
  match c with
  | Category.Build _ None _ => c
  | Category.Build _ (Some p) _ => category_root p
  end.

(** A string of white space only (the empty string included). *)
Fixpoint blank (s : string) : bool :=
  match s with
  | EmptyString => true
  | String c s' => PyStr.is_space c && blank s'
  end.

(* ===================================================================== *)
(** ** The classifier                                                     *)
(* ===================================================================== *)

Section Classifier.
Import MediaFileBase.

Lemma first_match_app (fts1 fts2 : list filetype) (name : string) :
  first_match (fts1 ++ fts2) name =
  match first_match fts1 name with
  | Some k => Some k
  | None => first_match fts2 name
  end.
Proof.
  induction fts1 as [|[[k l] test] fts1 IH]; simpl; [reflexivity|].
  destruct (test name); [reflexivity | exact IH].
Qed.

Lemma first_match_rejects (fts : list filetype) (name : string) :
  Forall (rejects name) fts -> first_match fts name = None.
Proof.
  induction 1 as [|[[k l] test] fts Hx _ IH]; simpl; [reflexivity|].
  unfold rejects, type_test in Hx; simpl in Hx. rewrite Hx. exact IH.
Qed.

Lemma first_match_None_inv (fts : list filetype) (name : string) :
  first_match fts name = None -> Forall (rejects name) fts.
Proof.
  induction fts as [|[[k l] test] fts IH]; simpl; intros H; [constructor|].
  destruct (test name) eqn:Ht; [discriminate|].
  constructor; [exact Ht | auto].
Qed.

Lemma first_match_hit (before after : list filetype) (ft : filetype)
      (name : string) :
  Forall (rejects name) before -> type_test ft name = true ->
  first_match (before ++ ft :: after) name = Some (type_key ft).
Proof.
  intros Hb Hm. rewrite first_match_app, (first_match_rejects _ _ Hb).
  destruct ft as [[k l] test]; unfold type_test in Hm; simpl in *.
  rewrite Hm. reflexivity.
Qed.

Lemma first_match_Some_elem (fts : list filetype) (name k : string) :
  first_match fts name = Some k ->
  exists ft, ft ∈ fts /\ type_key ft = k /\ type_test ft name = true.
Proof.
  induction fts as [|[[k' l] test] fts IH]; simpl; [discriminate|].
  destruct (test name) eqn:Ht.
  - intros [= <-]. exists (k', l, test). repeat split; [left | exact Ht].
  - intros H. destruct (IH H) as (ft & Hin & Hk & Hm).
    exists ft. repeat split; [right; exact Hin | exact Hk | exact Hm].
Qed.

Lemma last_key_snoc (init : list filetype) (ft : filetype) :
  last_key (init ++ [ft]) = Ok (type_key ft).
Proof. unfold last_key. rewrite last_snoc. reflexivity. Qed.

Lemma last_key_nonempty (fts : list filetype) :
  fts <> [] -> exists ft, ft ∈ fts /\ last_key fts = Ok (type_key ft).
Proof.
  intros Hne. destruct (last fts) as [ft|] eqn:Hl.
  - exists ft. split.
    + apply last_Some in Hl as [init ->]. apply elem_of_app. right. left.
    + unfold last_key. rewrite Hl. reflexivity.
  - apply last_None in Hl. contradiction.
Qed.

Lemma determine_file_type_returns (cls : Class) (name : string) :
  filetypes cls <> [] -> exists k, determine_file_type cls name = Ok k.
Proof.
  intros Hne. unfold determine_file_type.
  destruct (first_match (filetypes cls) name) as [k|]; [eauto|].
  destruct (last_key_nonempty _ Hne) as (ft & _ & ->). eauto.
Qed.

Lemma determine_file_type_empty (cls : Class) (name : string) :
  filetypes cls = [] -> determine_file_type cls name = Raise IndexError.
Proof. intros Heq. unfold determine_file_type. rewrite Heq. reflexivity. Qed.

Lemma determine_file_type_hit (cls : Class) (before after : list filetype)
      (ft : filetype) (name : string) :
  filetypes cls = before ++ ft :: after ->
  Forall (rejects name) before -> type_test ft name = true ->
  determine_file_type cls name = Ok (type_key ft).
Proof.
  intros Heq Hb Hm. unfold determine_file_type.
  rewrite Heq, (first_match_hit _ _ _ _ Hb Hm). reflexivity.
Qed.

Lemma determine_file_type_miss (cls : Class) (init : list filetype)
      (ft : filetype) (name : string) :
  filetypes cls = init ++ [ft] ->
  Forall (rejects name) init ->
  determine_file_type cls name = Ok (type_key ft).
Proof.
  intros Heq Hb. unfold determine_file_type. rewrite Heq.
  rewrite first_match_app, (first_match_rejects _ _ Hb). simpl.
  destruct ft as [[k l] test]; simpl.
  destruct (test name); [reflexivity | apply last_key_snoc].
Qed.

End Classifier.

Section ClassifierClaims.
Import MediaFileBase.

(** Every pattern of the default rules lies in the supported fragment. *)
Lemma default_patterns_compile :
  Forall (fun p => is_Some (Re.compile p))
    [ "\.(bmp|jpe?g|jp2|jxr|gif|png|tiff?)$";
      "\.(mov|m[14]v|mp4|avi|mpe?g|qt|ogv|wmv)$";
      "\.(au|mp3|m4a|wma|oga|ram|wav)$";
      "\.docx?$"; "\.xlsx?$"; "\.pptx?$" ].
Proof. repeat constructor; vm_compute; eauto. Qed.

(** The doctest of [determine_file_type]. *)
Example determine_file_type_doctest :
  map (determine_file_type imported)
    ["foobar.jpg"; "foobar.PDF"; "foobar.jpg.pdf"; "foobar.jgp"; "foobar-jpg"]
  = [Ok "image"; Ok "pdf"; Ok "pdf"; Ok "other"; Ok "other"].
Proof. vm_compute. reflexivity. Qed.

Lemma last_app_nonempty {A} (l1 l2 : list A) :
  l2 <> [] -> last (l1 ++ l2) = last l2.
Proof.
  intros Hne. destruct (last l2) as [x|] eqn:Hl.
  - apply last_Some in Hl as [init ->].
    rewrite app_assoc. apply last_snoc.
  - apply last_None in Hl. contradiction.
Qed.

Lemma determine_file_type_ext (cls : Class) (n1 n2 : string) :
  Forall (fun ft => type_test ft n1 = type_test ft n2) (filetypes cls) ->
  determine_file_type cls n1 = determine_file_type cls n2.
Proof.
  unfold determine_file_type. intros H.
  assert (first_match (filetypes cls) n1 = first_match (filetypes cls) n2) as ->;
    [|reflexivity].
  induction H as [|[[k l] test] fts Hx _ IH]; simpl; [reflexivity|].
  unfold type_test in Hx; simpl in Hx. rewrite Hx, IH. reflexivity.
Qed.

(** C1. For every class state and file name, [determine_file_type] walks
    [filetypes] from the front and returns the key of the first rule whose
    test accepts the name; when no test accepts it, the key of the last
    rule is returned. In the registry installed at import time the last
    rule is the catch-all "other", whose test accepts every name. *)
Theorem determine_file_type_first_match (cls : Class) (name : string) :
  (forall before ft after,
      filetypes cls = before ++ ft :: after ->
      Forall (rejects name) before ->
      type_test ft name = true ->
      determine_file_type cls name = Ok (type_key ft))
  /\ (forall init ft,
      filetypes cls = init ++ [ft] ->
      Forall (rejects name) (filetypes cls) ->
      determine_file_type cls name = Ok (type_key ft))
  /\ (exists init test,
      filetypes imported = init ++ [("other", "Binary", test)]
      /\ (forall n, test n = true)
      /\ (Forall (rejects name) init ->
          determine_file_type imported name = Ok "other")).
Proof.
  split; [|split].
  - intros before ft after. apply determine_file_type_hit.
  - intros init ft Heq Hall. apply (determine_file_type_miss cls init ft); [exact Heq|].
    rewrite Heq in Hall. apply Forall_app in Hall. tauto.
  - exists (take 11 default_filetypes), (fun _ => true).
    split; [reflexivity|]. split; [reflexivity|].
    intros Hall.
    exact (determine_file_type_miss imported (take 11 default_filetypes)
             ("other", "Binary", fun _ => true) name eq_refl Hall).
Qed.

Lemma determine_file_type_first_match_witness :
  determine_file_type imported "foobar.PDF" = Ok "pdf"
  /\ determine_file_type
       (register_filetypes initial
          [("pdf", "PDF document", fun f => PyStr.endswith (PyStr.lower f) ".pdf");
           ("txt", "Text", fun f => PyStr.endswith (PyStr.lower f) ".txt")])
       "archive.zip" = Ok "txt"
  /\ determine_file_type imported "foobar.jgp" = Ok "other".
Proof.
  pose (pdf := ("pdf", "PDF document",
                fun f => PyStr.endswith (PyStr.lower f) ".pdf") : filetype).
  pose (txt := ("txt", "Text",
                fun f => PyStr.endswith (PyStr.lower f) ".txt") : filetype).
  split; [|split].
  - apply (proj1 (determine_file_type_first_match imported "foobar.PDF")
             (take 3 default_filetypes) pdf (drop 4 default_filetypes)).
    + reflexivity.
    + repeat (constructor; [vm_compute; reflexivity|]). constructor.
    + vm_compute. reflexivity.
  - apply (proj1 (proj2 (determine_file_type_first_match
                           (register_filetypes initial [pdf; txt]) "archive.zip"))
             [pdf] txt).
    + reflexivity.
    + repeat (constructor; [vm_compute; reflexivity|]). constructor.
  - destruct (proj2 (proj2 (determine_file_type_first_match imported "foobar.jgp")))
      as (init & test & Heq & _ & Hother).
    apply Hother.
    change (filetypes imported)
      with (take 11 default_filetypes ++ [("other", "Binary", fun _ => true)])
      in Heq.
    apply app_inj_tail_iff in Heq as [<- _].
    repeat (constructor; [vm_compute; reflexivity|]). constructor.
Defined.

(** C10. With a non-empty registry [determine_file_type] returns, for every
    name, the key of some rule of the registry and never raises. The
    non-empty registry is a precondition: on the empty one (the class
    attribute as declared, before anything is registered) the final
    [self.filetypes[-1]] has nothing to index and raises [IndexError]. *)
Theorem determine_file_type_total (cls : Class) (name : string) :
  (filetypes cls <> [] ->
   exists ft, ft ∈ filetypes cls
              /\ determine_file_type cls name = Ok (type_key ft))
  /\ (filetypes cls = [] -> determine_file_type cls name = Raise IndexError)
  /\ determine_file_type initial name = Raise IndexError.
Proof.
  split; [|split].
  - intros Hne. unfold determine_file_type.
    destruct (first_match (filetypes cls) name) as [k|] eqn:Hf.
    + apply first_match_Some_elem in Hf as (ft & Hin & <- & _). eauto.
    + apply last_key_nonempty, Hne.
  - intros Heq. unfold determine_file_type. rewrite Heq. reflexivity.
  - reflexivity.
Qed.

Lemma determine_file_type_total_witness :
  exists ft, ft ∈ filetypes imported
             /\ determine_file_type imported "notes.txt" = Ok (type_key ft).
Proof.
  apply (proj1 (determine_file_type_total imported "notes.txt")).
  intros H. apply (f_equal length) in H. vm_compute in H. discriminate H.
Defined.

(** C6. [register_filetypes] puts the supplied triples in front of the
    registry. A newly registered rule that accepts a name decides its key
    whatever the older rules say, and of two rules that both accept a name
    the one nearer the front decides; a name that no new rule accepts is
    classified as before. *)
Theorem register_filetypes_prepends (cls : Class) (types : list filetype)
        (name : string) :
  filetypes (register_filetypes cls types) = types ++ filetypes cls
  /\ (forall before ft after,
      types = before ++ ft :: after ->
      Forall (rejects name) before ->
      type_test ft name = true ->
      determine_file_type (register_filetypes cls types) name
      = Ok (type_key ft))
  /\ (forall l1 a l2 b l3,
      filetypes cls = l1 ++ a :: l2 ++ b :: l3 ->
      Forall (rejects name) l1 ->
      type_test a name = true ->
      type_test b name = true ->
      determine_file_type cls name = Ok (type_key a))
  /\ (Forall (rejects name) types ->
      filetypes cls <> [] ->
      determine_file_type (register_filetypes cls types) name
      = determine_file_type cls name).
Proof.
  split; [reflexivity|]. split; [|split].
  - intros before ft after -> Hb Hm.
    apply (determine_file_type_hit _ before (after ++ filetypes cls) ft);
      [|exact Hb|exact Hm].
    simpl. rewrite <- app_assoc. reflexivity.
  - intros l1 a l2 b l3 Heq Hb Ha _.
    exact (determine_file_type_hit cls l1 (l2 ++ b :: l3) a name Heq Hb Ha).
  - intros Hrej Hne. unfold determine_file_type. simpl.
    rewrite first_match_app, (first_match_rejects _ _ Hrej).
    unfold last_key. rewrite (last_app_nonempty _ _ Hne). reflexivity.
Qed.

Lemma register_filetypes_prepends_witness :
  determine_file_type
    (register_filetypes imported
       [("scan", "Scanned page", fun f => PyStr.endswith (PyStr.lower f) ".pdf")])
    "foobar.PDF" = Ok "scan"
  /\ determine_file_type imported "page.jpg" = Ok "image"
  /\ determine_file_type
       (register_filetypes imported
          [("scan", "Scanned page", fun f => PyStr.endswith (PyStr.lower f) ".pdf")])
       "page.jpg" = determine_file_type imported "page.jpg".
Proof.
  pose (scan := ("scan", "Scanned page",
                 fun f => PyStr.endswith (PyStr.lower f) ".pdf") : filetype).
  split; [|split].
  - apply (proj1 (proj2 (register_filetypes_prepends imported [scan] "foobar.PDF"))
             [] scan []); [reflexivity | constructor | vm_compute; reflexivity].
  - apply (proj1 (proj2 (proj2
             (register_filetypes_prepends imported [] "page.jpg")))
             [] ("image", "Image",
                 fun f => Re.search true "\.(bmp|jpe?g|jp2|jxr|gif|png|tiff?)$" f)
             (take 10 (drop 1 default_filetypes))
             ("other", "Binary", fun _ => true) []);
      [reflexivity | constructor | vm_compute; reflexivity | reflexivity].
  - apply (proj2 (proj2 (proj2
             (register_filetypes_prepends imported [scan] "page.jpg")))).
    + repeat (constructor; [vm_compute; reflexivity|]). constructor.
    + intros H. apply (f_equal length) in H. vm_compute in H. discriminate H.
Defined.

(** C7. A name with several extensions is classified by the registry walk,
    that is, only through the verdicts of the registered tests on the whole
    name: two names on which every test agrees get the same key. With the
    default registry "foobar.jpg.pdf" is a "pdf"; once a rule that looks
    for ".jpg" anywhere in the name is registered, that rule wins. *)
Theorem multiple_extensions_by_registry_walk :
  determine_file_type imported "foobar.jpg.pdf" = Ok "pdf"
  /\ (forall cls n1 n2,
      Forall (fun ft => type_test ft n1 = type_test ft n2) (filetypes cls) ->
      determine_file_type cls n1 = determine_file_type cls n2)
  /\ determine_file_type
       (register_filetypes imported
          [("jpeg", "JPEG inside", fun f => Re.search true "\.jpg" f)])
       "foobar.jpg.pdf" = Ok "jpeg".
Proof.
  split; [vm_compute; reflexivity|]. split.
  - exact determine_file_type_ext.
  - vm_compute. reflexivity.
Qed.

Lemma multiple_extensions_by_registry_walk_witness :
  determine_file_type imported "foobar.jpg.pdf"
  = determine_file_type imported "x.PDF".
Proof.
  apply (proj1 (proj2 multiple_extensions_by_registry_walk)).
  repeat (constructor; [vm_compute; reflexivity|]). constructor.
Defined.

End ClassifierClaims.

(* ===================================================================== *)
(** ** Frame reasoning for method bodies                                  *)
(* ===================================================================== *)

Section Frames.
Context {Obj : Type} (I : relation Obj) `{!PreOrder I} (E : event -> Prop).

Lemma preserves_ret {A} (a : A) : preserves I E (Py.ret a).
Proof. intros s. split; [reflexivity|]. exists []. split; [symmetry; apply app_nil_r | constructor]. Qed.

Lemma preserves_lift {A} (r : result A) : preserves I E (Py.lift r).
Proof. intros s. split; [reflexivity|]. exists []. split; [symmetry; apply app_nil_r | constructor]. Qed.

Lemma preserves_self : preserves I E (Py.self (Obj:=Obj)).
Proof. intros s. split; [reflexivity|]. exists []. split; [symmetry; apply app_nil_r | constructor]. Qed.

Lemma preserves_emit (ev : event) : E ev -> preserves I E (Py.emit ev).
Proof.
  intros Hev s. split; [reflexivity|]. exists [ev].
  split; [reflexivity | repeat constructor; exact Hev].
Qed.

Lemma preserves_modify (f : Obj -> Obj) :
  (forall o, I o (f o)) -> preserves I E (Py.modify f).
Proof.
  intros Hf s. split; [apply Hf|]. exists [].
  split; [symmetry; apply app_nil_r | constructor].
Qed.

Lemma preserves_bind {A B} (m : Py.M Obj A) (k : A -> Py.M Obj B) :
  preserves I E m -> (forall a, preserves I E (k a)) ->
  preserves I E (Py.bind m k).
Proof.
  intros Hm Hk s. unfold Py.bind.
  destruct (Hm s) as (HI & l & Htr & Hl).
  destruct (m s) as [[a|e] s1]; unfold object_after, trace_after in *; simpl in *.
  - destruct (Hk a s1) as (HI2 & l2 & Htr2 & Hl2).
    unfold object_after, trace_after in *.
    split; [etransitivity; eassumption|].
    exists (l ++ l2). rewrite Htr2, Htr, app_assoc.
    split; [reflexivity | apply Forall_app; auto].
  - split; [exact HI|]. exists l. auto.
Qed.

Lemma preserves_try_except {A} (body : Py.M Obj A) (classes : list exn)
      (handler : exn -> Py.M Obj A) :
  preserves I E body -> (forall e, preserves I E (handler e)) ->
  preserves I E (Py.try_except body classes handler).
Proof.
  intros Hm Hk s. unfold Py.try_except.
  destruct (Hm s) as (HI & l & Htr & Hl).
  destruct (body s) as [[a|e] s1]; unfold object_after, trace_after in *; simpl in *.
  - split; [exact HI|]. exists l. auto.
  - destruct (Py.is_a e classes).
    + destruct (Hk e s1) as (HI2 & l2 & Htr2 & Hl2).
      unfold object_after, trace_after in *.
      split; [etransitivity; eassumption|].
      exists (l ++ l2). rewrite Htr2, Htr, app_assoc.
      split; [reflexivity | apply Forall_app; auto].
    + split; [exact HI|]. exists l. auto.
Qed.

Lemma preserves_when (cond : bool) (body : Py.M Obj unit) :
  preserves I E body -> preserves I E (Py.when cond body).
Proof. intros Hb. destruct cond; [exact Hb | apply preserves_ret]. Qed.

Lemma preserves_weaken {A} (I' : relation Obj) (E' : event -> Prop)
      (m : Py.M Obj A) :
  (forall a b, I a b -> I' a b) -> (forall ev, E ev -> E' ev) ->
  preserves I E m -> preserves I' E' m.
Proof.
  intros HI HE Hm s. destruct (Hm s) as (H1 & l & Htr & Hl).
  split; [apply HI, H1|]. exists l. split; [exact Htr|].
  eapply Forall_impl; [exact Hl | exact HE].
Qed.

Lemma stateless_ret {A} (a : A) : stateless (Py.ret (Obj:=Obj) a).
Proof. intros s s'. reflexivity. Qed.

Lemma stateless_lift {A} (r : result A) : stateless (Py.lift (Obj:=Obj) r).
Proof. intros s s'. reflexivity. Qed.

Lemma stateless_emit (ev : event) : stateless (Py.emit (Obj:=Obj) ev).
Proof. intros s s'. reflexivity. Qed.

Lemma stateless_bind {A B} (m : Py.M Obj A) (k : A -> Py.M Obj B) :
  stateless m -> (forall a, stateless (k a)) -> stateless (Py.bind m k).
Proof.
  intros Hm Hk s s'. unfold Py.bind, outcome.
  specialize (Hm s s'). unfold outcome in Hm.
  destruct (m s) as [[a|e] s1], (m s') as [[a'|e'] s1']; simpl in Hm;
    try discriminate; injection Hm as <-; [apply Hk | reflexivity].
Qed.

Lemma stateless_try_except {A} (body : Py.M Obj A) (classes : list exn)
      (handler : exn -> Py.M Obj A) :
  stateless body -> (forall e, stateless (handler e)) ->
  stateless (Py.try_except body classes handler).
Proof.
  intros Hm Hk s s'. unfold Py.try_except, outcome.
  specialize (Hm s s'). unfold outcome in Hm.
  destruct (body s) as [[a|e] s1], (body s') as [[a'|e'] s1']; simpl in Hm;
    try discriminate; injection Hm as <-; [reflexivity|].
  destruct (Py.is_a e classes); [apply Hk | reflexivity].
Qed.

Lemma stateless_when (cond : bool) (body : Py.M Obj unit) :
  stateless body -> stateless (Py.when cond body).
Proof. intros Hb. destruct cond; [exact Hb | apply stateless_ret]. Qed.

End Frames.

(* ===================================================================== *)
(** ** The phases of [MediaFileBase.save]                                 *)
(* ===================================================================== *)

Section SavePhases.
Import MediaFileBase.

#[local] Instance only_file_size_preorder : PreOrder only_file_size.
Proof.
  split.
  - intros [? ? ? ? ? ? ?]. reflexivity.
  - intros a b c Hab Hbc. unfold only_file_size in *.
    rewrite Hbc, Hab. reflexivity.
Qed.

#[local] Instance only_type_preorder : PreOrder only_type.
Proof.
  split.
  - intros [? ? ? ? ? ? ?]. reflexivity.
  - intros a b c Hab Hbc. unfold only_type in *.
    rewrite Hbc, Hab. reflexivity.
Qed.

#[local] Instance only_id_and_name_preorder : PreOrder only_id_and_name.
Proof.
  split.
  - intros [? ? ? ? ? ? ?]. reflexivity.
  - intros a b c Hab Hbc. unfold only_id_and_name in *.
    rewrite Hbc, Hab. reflexivity.
Qed.

#[local] Instance only_type_id_name_preorder : PreOrder only_type_id_name.
Proof.
  split.
  - intros [? ? ? ? ? ? ?]. reflexivity.
  - intros a b c Hab Hbc. unfold only_type_id_name in *.
    rewrite Hbc, Hab. reflexivity.
Qed.

#[local] Instance only_type_and_size_preorder : PreOrder only_type_and_size.
Proof.
  split.
  - intros [? ? ? ? ? ? ?]. reflexivity.
  - intros a b c Hab Hbc. unfold only_type_and_size in *.
    rewrite Hbc, Hab. reflexivity.
Qed.

#[local] Instance same_original_preorder : PreOrder same_original.
Proof.
  split.
  - intros o. reflexivity.
  - intros a b c Hab Hbc. unfold same_original in *. congruence.
Qed.

#[local] Instance same_file_preorder : PreOrder same_file.
Proof.
  split.
  - intros o. split; reflexivity.
  - intros a b c [H1 H2] [H3 H4]. split; congruence.
Qed.

Ltac frame :=
  repeat first
    [ progress cbv zeta
    | progress intros
    | lazymatch goal with |- PreOrder _ => apply _ end
    | apply preserves_ret
    | apply preserves_lift
    | apply preserves_self
    | apply preserves_when
    | apply preserves_bind
    | apply preserves_try_except
    | apply preserves_emit
    | apply preserves_modify ].

Variable cls : Class.
Variable env : Env.

Lemma rotate_by_exif_frame :
  preserves eq (fun ev => is_image_event ev = true) (rotate_by_exif env).
Proof. unfold rotate_by_exif, open_image, rotate_image. frame; reflexivity. Qed.

Lemma read_size_frame :
  preserves only_file_size (fun ev => ev = EvLogError) (read_size env).
Proof. unfold read_size. frame; reflexivity. Qed.

Lemma check_image_frame :
  preserves only_type (fun ev => is_image_event ev = true) (check_image cls env).
Proof.
  unfold check_image, rotate_by_exif, open_image, rotate_image.
  frame; reflexivity.
Qed.

Lemma cleanup_frame :
  preserves eq (fun ev => exists n, ev = EvStorageDelete n) (cleanup env).
Proof.
  unfold cleanup. apply preserves_bind; [apply _|frame|]. intros self.
  destruct (_original_file_name self); frame. eauto.
Qed.

Lemma read_size_skip (o : t) (tr : list event) :
  PyStr.truthy (file_name o) = false ->
  read_size env (o, tr) = (Ok tt, (o, tr)).
Proof. intros H. unfold read_size, Py.bind, Py.self; simpl. rewrite H. reflexivity. Qed.

Lemma read_size_ok (o : t) (tr : list event) (n : Z) :
  PyStr.truthy (file_name o) = true -> file_size_read env = Ok n ->
  read_size env (o, tr) = (Ok tt, (set_file_size (Some n) o, tr)).
Proof.
  intros H Hn. unfold read_size, Py.bind, Py.self; simpl. rewrite H.
  unfold Py.when, Py.try_except, Py.bind, Py.lift. rewrite Hn. reflexivity.
Qed.

Lemma read_size_caught (o : t) (tr : list event) (e : exn) :
  PyStr.truthy (file_name o) = true -> file_size_read env = Raise e ->
  Py.is_a e [OSError; IOError; ValueError] = true ->
  read_size env (o, tr) = (Ok tt, (o, tr ++ [EvLogError])).
Proof.
  intros H Hn He. unfold read_size, Py.bind, Py.self; simpl. rewrite H.
  unfold Py.when, Py.try_except, Py.bind, Py.lift. rewrite Hn, He. reflexivity.
Qed.

Lemma read_size_returns (s : t * list event) :
  size_error_caught env = true -> outcome (read_size env s) = Ok tt.
Proof.
  unfold size_error_caught. intros H. destruct s as [o tr].
  destruct (PyStr.truthy (file_name o)) eqn:Hf.
  - destruct (file_size_read env) as [n|e] eqn:Hn.
    + rewrite (read_size_ok _ _ n Hf Hn). reflexivity.
    + rewrite (read_size_caught _ _ e Hf Hn H). reflexivity.
  - rewrite (read_size_skip _ _ Hf). reflexivity.
Qed.

Lemma open_image_ok (img : Image) (s : t * list event) :
  opens_as env img -> open_image env s = (Ok img, s).
Proof.
  unfold open_image, Py.try_except, Py.bind, Py.lift.
  intros [H | (e & path & H & He & Hp & Hi)]; rewrite H; [reflexivity|].
  rewrite He, Hp, Hi. reflexivity.
Qed.

Lemma open_image_fails (e1 e2 : exn) (path : string) (s : t * list event) :
  image_open_file env = Raise e1 -> Py.is_a e1 [OSError; IOError] = true ->
  file_path env = Ok path -> image_open_path env path = Raise e2 ->
  open_image env s = (Raise e2, s).
Proof.
  intros H He Hp Hi. unfold open_image, Py.try_except, Py.bind, Py.lift.
  rewrite H, He, Hp, Hi. reflexivity.
Qed.

Lemma exif_falsy_no_rotation (exif : option (gmap Z Z)) :
  exif_truthy exif = false -> rotation_for (exif_get exif 274) = 0.
Proof.
  destruct exif as [d|]; simpl; [|reflexivity].
  intros H. apply bool_decide_eq_false in H.
  destruct (decide (d = ∅)) as [->|Hne]; [|contradiction].
  rewrite lookup_empty. reflexivity.
Qed.

(** What the rotation block does to an image whose EXIF could be read. *)
Lemma rotate_image_exact (img : Image) (exif : option (gmap Z Z)) (o : t)
      (tr : list event) :
  image_truthy img = true -> _getexif img = Ok exif ->
  rotate_image env img (o, tr) =
  let r := rotation_for (exif_get exif 274) in
  if r =? 0 then (Ok tt, (o, tr))
  else match rotate img r with
       | Raise e => (Raise e, (o, tr ++ [EvRotate r]))
       | Ok _ =>
           match file_path env with
           | Raise e => (Raise e, (o, tr ++ [EvRotate r]))
           | Ok p => (image_save img p,
                      (o, (tr ++ [EvRotate r]) ++ [EvImageSave p]))
           end
       end.
Proof.
  intros Ht Hx. unfold rotate_image. rewrite Ht.
  unfold Py.when, Py.try_except, Py.bind, Py.lift at 1. rewrite Hx.
  cbv zeta. destruct (exif_truthy exif) eqn:Hex.
  - destruct (rotation_for (exif_get exif 274) =? 0); simpl; [reflexivity|].
    unfold Py.emit, Py.lift; simpl.
    destruct (rotate img _) as [[]|e]; [|reflexivity].
    destruct (file_path env) as [p|e]; [|reflexivity].
    destruct (image_save img p) as [[]|e]; reflexivity.
  - rewrite (exif_falsy_no_rotation _ Hex). reflexivity.
Qed.

Lemma check_image_skip (o : t) (tr : list event) :
  String.eqb (type o) "image" = false ->
  check_image cls env (o, tr) = (Ok tt, (o, tr)).
Proof.
  intros H. unfold check_image, Py.bind, Py.self; simpl. rewrite H. reflexivity.
Qed.

Lemma check_image_run (o : t) (tr : list event) :
  type o = "image" ->
  check_image cls env (o, tr) =
  match rotate_by_exif env (o, tr) with
  | (Raise e, s) =>
      if Py.is_a e [OSError; IOError]
      then match determine_file_type cls "***" with
           | Ok type_key => (Ok tt, (set_type type_key (fst s), snd s))
           | Raise e' => (Raise e', s)
           end
      else (Raise e, s)
  | r => r
  end.
Proof.
  intros H. unfold check_image, Py.bind at 1, Py.self; simpl. rewrite H.
  simpl. unfold Py.try_except.
  destruct (rotate_by_exif env (o, tr)) as [[[]|e] s]; [reflexivity|].
  destruct (Py.is_a e [OSError; IOError]); [|reflexivity].
  unfold Py.bind, Py.lift, Py.modify.
  destruct (determine_file_type cls "***"); reflexivity.
Qed.

(** The three ways [cleanup] can go. *)
Lemma cleanup_exact (o : t) (tr : list event) :
  cleanup env (o, tr) =
  match _original_file_name o with
  | Some original =>
      if PyStr.truthy original && negb (String.eqb (file_name o) original)
      then (storage_delete env original, (o, tr ++ [EvStorageDelete original]))
      else (Ok tt, (o, tr))
  | None => (Ok tt, (o, tr))
  end.
Proof.
  unfold cleanup, Py.bind at 1, Py.self; simpl.
  destruct (_original_file_name o) as [orig|]; [|reflexivity].
  destruct (PyStr.truthy orig); simpl; [|reflexivity].
  destruct (String.eqb (file_name o) orig); simpl; [reflexivity|].
  unfold Py.bind, Py.emit, Py.lift; simpl.
  destruct (storage_delete env orig) as [[]|e]; reflexivity.
Qed.

(** [save] as the sequence of its phases. *)
Lemma save_phases (o : t) (tr : list event) :
  save cls env (o, tr) =
  match determine_file_type cls (file_name o) with
  | Raise e => (Raise e, (with_created env o, tr))
  | Ok type_key =>
      (read_size env ;;; check_image cls env ;;; after_check env)
        (set_type type_key (with_created env o), tr)
  end.
Proof.
  unfold save, after_check, with_created, Py.bind at 1 2 3 4.
  unfold Py.when, Py.self, Py.modify, Py.lift at 1, Py.ret. cbn [fst snd].
  destruct (negb (id_truthy (id o)) && negb (is_Some_b (created o)));
    cbn [fst snd];
    destruct (determine_file_type cls (file_name o)) as [k|e]; reflexivity.
Qed.

Lemma image_events_app (l1 l2 : list event) :
  image_events (l1 ++ l2) = image_events l1 ++ image_events l2.
Proof. apply filter_app. Qed.

Lemma image_events_none (l : list event) :
  Forall (fun ev => is_image_event ev = false) l -> image_events l = [].
Proof.
  induction 1 as [|ev l Hev _ IH]; [reflexivity|].
  unfold image_events in *. rewrite filter_cons, IH.
  destruct (decide (is_image_event ev = true)); [congruence | reflexivity].
Qed.

Lemma deletes_app (l1 l2 : list event) :
  deletes (l1 ++ l2) = deletes l1 ++ deletes l2.
Proof. apply omap_app. Qed.

Lemma deletes_none (l : list event) :
  Forall (fun ev => forall n, ev <> EvStorageDelete n) l -> deletes l = [].
Proof.
  induction 1 as [|ev l Hev _ IH]; [reflexivity|].
  destruct ev; try exact IH. exfalso. eapply Hev. reflexivity.
Qed.

(** The call of the inherited save and the purge that follows it. *)
Lemma inherited_save_exact (o : t) (tr : list event) :
  (inherited_save env ;;; Py.emit EvPurgeTranslationCache) (o, tr)
  = match super_save env with
    | Ok _ => (Ok tt, (inherited_writes env o,
                       (tr ++ [EvModelSave]) ++ [EvPurgeTranslationCache]))
    | Raise e => (Raise e, (inherited_writes env o, tr ++ [EvModelSave]))
    end.
Proof.
  unfold inherited_save, Py.bind, Py.emit, Py.modify, Py.lift. simpl.
  destruct (super_save env) as [[]|e]; reflexivity.
Qed.

(** The statements after the image check write nothing on the object but
    what the inherited save writes, and call neither the logger nor the
    image. *)
Lemma after_check_frame :
  preserves only_id_and_name
    (fun ev => is_image_event ev = false /\ ev <> EvLogError)
    (after_check env).
Proof.
  unfold after_check. apply preserves_bind; [apply _| |].
  - intros s. destruct (cleanup_frame s) as (Heq & l & Htr & Hl).
    split; [rewrite <- Heq; reflexivity|]. exists l. split; [exact Htr|].
    eapply Forall_impl; [exact Hl|]. intros ev [n ->]. split; [reflexivity|discriminate].
  - intros _. unfold inherited_save.
    frame; try reflexivity; split; (reflexivity || discriminate).
Qed.

Lemma after_check_returns (s : t * list event) :
  (forall n, storage_delete env n = Ok tt) -> super_save env = Ok tt ->
  outcome (after_check env s) = Ok tt.
Proof.
  intros Hd Hs. destruct s as [o tr].
  unfold after_check, Py.bind at 1. rewrite cleanup_exact.
  assert (forall s' : t * list event,
             outcome ((inherited_save env ;;; Py.emit EvPurgeTranslationCache) s')
             = Ok tt) as Hrest.
  { intros [o' tr']. rewrite inherited_save_exact, Hs. reflexivity. }
  destruct (_original_file_name o) as [orig|]; [|apply Hrest].
  destruct (PyStr.truthy orig && negb (String.eqb (file_name o) orig));
    [|apply Hrest].
  rewrite Hd. apply Hrest.
Qed.

(** Up to the image check a save whose size read does not escape only
    touches [file_size] and only calls the logger. *)
Lemma save_until_check (o : t) (tr : list event) (k : string) :
  determine_file_type cls (file_name o) = Ok k ->
  size_error_caught env = true ->
  exists o1 l1,
    only_file_size (set_type k (with_created env o)) o1
    /\ Forall (fun ev => ev = EvLogError) l1
    /\ save cls env (o, tr)
       = (check_image cls env ;;; after_check env) (o1, tr ++ l1).
Proof.
  intros Hdet Hsz. rewrite save_phases, Hdet.
  set (o0 := set_type k (with_created env o)).
  pose proof (read_size_returns (o0, tr) Hsz) as Hout.
  destruct (read_size_frame (o0, tr)) as (Hfs & l1 & Htr1 & Hl1).
  unfold Py.bind at 1.
  destruct (read_size env (o0, tr)) as [r1 [o1 tr1]].
  unfold outcome, object_after, trace_after in *; simpl in *. subst r1 tr1.
  exists o1, l1. auto.
Qed.

Lemma only_file_size_same_file (a b : t) : only_file_size a b -> same_file a b.
Proof. intros ->. split; reflexivity. Qed.

Lemma only_type_same_file (a b : t) : only_type a b -> same_file a b.
Proof. intros ->. split; reflexivity. Qed.

Lemma with_created_same_file (o : t) (k : string) :
  same_file o (set_type k (with_created env o)).
Proof.
  unfold with_created.
  destruct (negb (id_truthy (id o)) && negb (is_Some_b (created o)));
    split; reflexivity.
Qed.

(** Whatever happens, [save] keeps the remembered original name. *)
Lemma save_frame : preserves same_original (fun _ => True) (save cls env).
Proof.
  unfold save, read_size, check_image, rotate_by_exif, open_image,
    rotate_image, cleanup, inherited_save.
  frame; try exact I; try reflexivity.
  match goal with |- preserves _ _ (match ?x with _ => _ end) => destruct x end;
    frame; exact I.
Qed.

(** Either [save] gets as far as the cleanup, having deleted nothing yet,
    or it raises before, having deleted nothing at all. *)
Lemma save_before_cleanup (o : t) (tr : list event) :
  (exists o2 l, same_file o o2
                /\ deletes l = []
                /\ save cls env (o, tr) = after_check env (o2, tr ++ l))
  \/ (exists e, outcome (save cls env (o, tr)) = Raise e
                /\ deletes (trace_after (save cls env (o, tr))) = deletes tr).
Proof.
  remember (save cls env (o, tr)) as R eqn:HR. rewrite save_phases in HR.
  destruct (determine_file_type cls (file_name o)) as [k|e];
    [|right; exists e; subst R; split; reflexivity].
  pose proof (with_created_same_file o k) as H0.
  set (o0 := set_type k (with_created env o)) in *.
  destruct (read_size_frame (o0, tr)) as (Hfs & l1 & Htr1 & Hl1).
  unfold Py.bind at 1 in HR.
  destruct (read_size env (o0, tr)) as [r1 [o1 tr1]].
  unfold object_after, trace_after in Hfs, Htr1; simpl in Hfs, Htr1. subst tr1.
  assert (deletes l1 = []) as Hd1.
  { apply deletes_none. eapply Forall_impl; [exact Hl1|].
    intros ev -> n. discriminate. }
  destruct r1 as [[]|e].
  2:{ right. exists e. subst R. split; [reflexivity|].
      unfold trace_after; simpl. rewrite deletes_app, Hd1. apply app_nil_r. }
  destruct (check_image_frame (o1, tr ++ l1)) as (Hty & l2 & Htr2 & Hl2).
  unfold Py.bind at 1 in HR.
  destruct (check_image cls env (o1, tr ++ l1)) as [r2 [o2 tr2]].
  unfold object_after, trace_after in Hty, Htr2; simpl in Hty, Htr2. subst tr2.
  assert (deletes l2 = []) as Hd2.
  { apply deletes_none. eapply Forall_impl; [exact Hl2|].
    intros ev Hev n ->. discriminate. }
  destruct r2 as [[]|e].
  - left. exists o2, (l1 ++ l2). split; [|split].
    + etransitivity; [exact H0|].
      etransitivity; [apply only_file_size_same_file, Hfs|].
      apply only_type_same_file, Hty.
    + rewrite deletes_app, Hd1, Hd2. reflexivity.
    + rewrite app_assoc. exact HR.
  - right. exists e. subst R. split; [reflexivity|].
    unfold trace_after; simpl. rewrite !deletes_app, Hd1, Hd2, !app_nil_r.
    reflexivity.
Qed.

(** From the cleanup on, exactly the superseded file is deleted. *)
Lemma after_check_deletes (o : t) (tr : list event) :
  deletes (trace_after (after_check env (o, tr))) = deletes tr ++ superseded o.
Proof.
  assert (forall (s' : t * list event),
             deletes (trace_after
                        ((inherited_save env ;;; Py.emit EvPurgeTranslationCache)
                           s'))
             = deletes (snd s')) as Hrest.
  { intros [o' tr']. rewrite inherited_save_exact. unfold trace_after.
    destruct (super_save env) as [[]|e]; simpl;
      rewrite !deletes_app; simpl; rewrite ?app_nil_r; reflexivity. }
  unfold after_check, Py.bind at 1, superseded. rewrite cleanup_exact.
  destruct (_original_file_name o) as [orig|];
    [|rewrite Hrest; simpl; rewrite app_nil_r; reflexivity].
  destruct (PyStr.truthy orig && negb (String.eqb (file_name o) orig));
    [|rewrite Hrest; simpl; rewrite app_nil_r; reflexivity].
  destruct (storage_delete env orig) as [[]|e].
  - rewrite Hrest. simpl. apply deletes_app.
  - unfold trace_after. simpl. apply deletes_app.
Qed.

Lemma superseded_same_file (a b : t) :
  same_file a b -> superseded b = superseded a.
Proof. intros [Hn Ho]. unfold superseded. rewrite Hn, Ho. reflexivity. Qed.

Lemma rotate_image_no_exif (img : Image) (e : exn) (s : t * list event) :
  _getexif img = Raise e ->
  Py.is_a e [AttributeError; IOError; KeyError] = true ->
  rotate_image env img s = (Ok tt, s).
Proof.
  intros Hx He. unfold rotate_image, Py.when.
  destruct (image_truthy img); [|reflexivity].
  unfold Py.try_except, Py.bind, Py.lift. rewrite Hx.
  destruct e; try discriminate He; reflexivity.
Qed.

(** The image calls of the check, for an image that opens and whose
    rotation and path are available. *)
Lemma check_image_rotation_trace (img : Image) (exif : option (gmap Z Z))
      (path : string) (o : t) (tr : list event) :
  type o = "image" ->
  opens_as env img -> image_truthy img = true -> _getexif img = Ok exif ->
  file_path env = Ok path ->
  rotate img (rotation_for (exif_get exif 274)) = Ok tt ->
  trace_after (check_image cls env (o, tr))
  = tr ++ (if rotation_for (exif_get exif 274) =? 0 then []
           else [EvRotate (rotation_for (exif_get exif 274)); EvImageSave path]).
Proof.
  intros Hty Hopen Ht Hx Hp Hrot.
  rewrite (check_image_run o tr Hty).
  unfold rotate_by_exif, Py.bind at 1.
  rewrite (open_image_ok img _ Hopen), (rotate_image_exact img exif o tr Ht Hx).
  cbv zeta.
  destruct (rotation_for (exif_get exif 274) =? 0);
    [symmetry; apply app_nil_r|].
  rewrite Hrot, Hp, <- app_assoc. simpl.
  destruct (image_save img path) as [[]|e]; [reflexivity|].
  destruct (Py.is_a e [OSError; IOError]); [|reflexivity].
  destruct (determine_file_type cls "***"); reflexivity.
Qed.

Lemma check_image_no_exif_trace (img : Image) (e : exn) (o : t)
      (tr : list event) :
  opens_as env img -> _getexif img = Raise e ->
  Py.is_a e [AttributeError; IOError; KeyError] = true ->
  check_image cls env (o, tr) = (Ok tt, (o, tr)).
Proof.
  intros Hopen Hx He.
  destruct (String.eqb (type o) "image") eqn:Hty;
    [|apply check_image_skip; exact Hty].
  apply String.eqb_eq in Hty. rewrite (check_image_run o tr Hty).
  unfold rotate_by_exif, Py.bind at 1.
  rewrite (open_image_ok img _ Hopen), (rotate_image_no_exif img e _ Hx He).
  reflexivity.
Qed.

(** What follows the image check adds no image call. *)
Lemma after_check_extends (s : t * list event) :
  image_events (trace_after ((check_image cls env ;;; after_check env) s))
  = image_events (trace_after (check_image cls env s)).
Proof.
  unfold Py.bind.
  destruct (check_image cls env s) as [[[]|e] s2]; [|reflexivity].
  destruct (after_check_frame s2) as (_ & l & Htr & Hl).
  rewrite Htr. unfold trace_after. simpl.
  rewrite image_events_app, (image_events_none l); [apply app_nil_r|].
  eapply Forall_impl; [exact Hl|]. intros ev [Hev _]. exact Hev.
Qed.

(** Whether the body of the outer [try] returns or raises is decided by
    the environment alone. *)
Lemma rotate_by_exif_outcome (s s' : t * list event) :
  outcome (rotate_by_exif env s) = outcome (rotate_by_exif env s').
Proof.
  revert s s'. change (stateless (rotate_by_exif env)).
  unfold rotate_by_exif, open_image, rotate_image.
  repeat first
    [ progress cbv zeta
    | progress intros
    | apply stateless_ret
    | apply stateless_lift
    | apply stateless_emit
    | apply stateless_when
    | apply stateless_bind
    | apply stateless_try_except ].
Qed.

(** Whether the statements after the image check return depends on the
    object only through its file name and remembered original name. *)
Lemma after_check_outcome (o o' : t) (tr tr' : list event) :
  file_name o = file_name o' ->
  _original_file_name o = _original_file_name o' ->
  outcome (after_check env (o, tr)) = outcome (after_check env (o', tr')).
Proof.
  intros Hn Ho.
  assert (stateless (inherited_save env ;;; Py.emit EvPurgeTranslationCache))
    as Hrest.
  { intros [o1 tr1] [o2 tr2]. rewrite !inherited_save_exact.
    destruct (super_save env) as [[]|e]; reflexivity. }
  unfold after_check.
  set (rest := (inherited_save env ;;; Py.emit EvPurgeTranslationCache)) in *.
  unfold Py.bind. rewrite !cleanup_exact, <- Hn, <- Ho.
  destruct (_original_file_name o) as [orig|]; [|apply Hrest].
  destruct (PyStr.truthy orig && negb (String.eqb (file_name o) orig));
    [|apply Hrest].
  destruct (storage_delete env orig) as [[]|e]; [apply Hrest | reflexivity].
Qed.

(** From the image check on, the outcome depends on the object only
    through its type, file name and remembered original name. *)
Lemma check_after_outcome (o o' : t) (tr tr' : list event) :
  type o = type o' ->
  file_name o = file_name o' ->
  _original_file_name o = _original_file_name o' ->
  outcome ((check_image cls env ;;; after_check env) (o, tr))
  = outcome ((check_image cls env ;;; after_check env) (o', tr')).
Proof.
  intros Ht Hn Ho. unfold Py.bind.
  destruct (String.eqb (type o) "image") eqn:Hty.
  - apply String.eqb_eq in Hty.
    rewrite (check_image_run o tr Hty), (check_image_run o' tr').
    2:{ rewrite <- Ht. exact Hty. }
    pose proof (rotate_by_exif_outcome (o, tr) (o', tr')) as Hout.
    destruct (rotate_by_exif_frame (o, tr)) as (Hobj & _).
    destruct (rotate_by_exif_frame (o', tr')) as (Hobj' & _).
    destruct (rotate_by_exif env (o, tr)) as [r [o2 tr2]].
    destruct (rotate_by_exif env (o', tr')) as [r' [o2' tr2']].
    unfold outcome, object_after in Hout, Hobj, Hobj'; simpl in Hout, Hobj, Hobj'.
    subst r' o2 o2'.
    destruct r as [[]|e]; [apply after_check_outcome; assumption|].
    destruct (Py.is_a e [OSError; IOError]); [|reflexivity].
    destruct (determine_file_type cls "***"); [|reflexivity].
    apply after_check_outcome; assumption.
  - rewrite (check_image_skip o tr Hty), (check_image_skip o' tr').
    2:{ rewrite <- Ht. exact Hty. }
    apply after_check_outcome; assumption.
Qed.

(** From the image check on, [file_size] is not touched. *)
Lemma check_after_frame :
  preserves only_type_id_name (fun _ => True)
    (check_image cls env ;;; after_check env).
Proof.
  apply preserves_bind; [apply _| |intros _].
  - eapply preserves_weaken; [| |apply check_image_frame]; [|auto].
    intros a b ->. unfold only_type_id_name. destruct a; reflexivity.
  - eapply preserves_weaken; [| |apply after_check_frame]; [|auto].
    intros a b ->. unfold only_type_id_name. destruct a; reflexivity.
Qed.

Lemma after_check_type (s : t * list event) :
  type (object_after (after_check env s)) = type (fst s).
Proof. destruct (after_check_frame s) as (Heq & _). rewrite Heq. reflexivity. Qed.

(** The object after the statements that follow the image check: the
    inherited save has written on it, unless the storage delete raised and
    the inherited save was not called. *)
Lemma after_check_object (o : t) (tr : list event) :
  object_after (after_check env (o, tr)) = inherited_writes env o
  \/ (object_after (after_check env (o, tr)) = o
      /\ (exists e, outcome (after_check env (o, tr)) = Raise e)
      /\ exists l, trace_after (after_check env (o, tr)) = tr ++ l
                   /\ Forall (fun ev => ev <> EvModelSave) l).
Proof.
  assert (forall tr',
             object_after
               ((inherited_save env ;;; Py.emit EvPurgeTranslationCache) (o, tr'))
             = inherited_writes env o) as Hrest.
  { intros tr'. rewrite inherited_save_exact.
    destruct (super_save env) as [[]|e]; reflexivity. }
  remember (after_check env (o, tr)) as R eqn:HR.
  unfold after_check, Py.bind at 1 in HR. rewrite cleanup_exact in HR.
  destruct (_original_file_name o) as [orig|];
    [|left; subst R; apply Hrest].
  destruct (PyStr.truthy orig && negb (String.eqb (file_name o) orig));
    [|left; subst R; apply Hrest].
  destruct (storage_delete env orig) as [[]|e];
    [left; subst R; apply Hrest|].
  right. subst R. split; [reflexivity|]. split; [exists e; reflexivity|].
  exists [EvStorageDelete orig]. split; [reflexivity|].
  repeat constructor. discriminate.
Qed.

Lemma only_file_size_type_and_size (a b : t) :
  only_file_size a b -> only_type_and_size a b.
Proof. intros ->. unfold only_type_and_size. destruct a; reflexivity. Qed.

Lemma only_type_type_and_size (a b : t) :
  only_type a b -> only_type_and_size a b.
Proof. intros ->. unfold only_type_and_size. destruct a; reflexivity. Qed.

(** What one [save] leaves on the instance: the statements of [save]
    itself write [created], [type] and [file_size]; the inherited save, when
    it is reached, then writes what it writes. *)
Lemma save_object (o : t) (tr : list event) :
  exists o2,
    only_type_and_size (with_created env o) o2
    /\ (object_after (save cls env (o, tr)) = inherited_writes env o2
        \/ (object_after (save cls env (o, tr)) = o2
            /\ (exists e, outcome (save cls env (o, tr)) = Raise e)
            /\ exists l, trace_after (save cls env (o, tr)) = tr ++ l
                         /\ Forall (fun ev => ev <> EvModelSave) l)).
Proof.
  remember (save cls env (o, tr)) as R eqn:HR. rewrite save_phases in HR.
  destruct (determine_file_type cls (file_name o)) as [k|e].
  2:{ exists (with_created env o). split; [reflexivity|]. right. subst R.
      split; [reflexivity|]. split; [exists e; reflexivity|].
      exists []. split; [symmetry; apply app_nil_r | constructor]. }
  assert (only_type_and_size (with_created env o)
            (set_type k (with_created env o))) as H0.
  { apply only_type_type_and_size. reflexivity. }
  set (o0 := set_type k (with_created env o)) in *.
  destruct (read_size_frame (o0, tr)) as (Hfs & l1 & Htr1 & Hl1).
  unfold Py.bind at 1 in HR.
  destruct (read_size env (o0, tr)) as [r1 [o1 tr1]].
  unfold object_after, trace_after in Hfs, Htr1; simpl in Hfs, Htr1. subst tr1.
  assert (only_type_and_size (with_created env o) o1) as H1.
  { etransitivity; [exact H0 | apply only_file_size_type_and_size, Hfs]. }
  assert (Forall (fun ev => ev <> EvModelSave) l1) as Hn1.
  { eapply Forall_impl; [exact Hl1|]. intros ev ->. discriminate. }
  destruct r1 as [[]|e].
  2:{ exists o1. split; [exact H1|]. right. subst R.
      split; [reflexivity|]. split; [exists e; reflexivity|].
      exists l1. split; [reflexivity | exact Hn1]. }
  destruct (check_image_frame (o1, tr ++ l1)) as (Hty & l2 & Htr2 & Hl2).
  unfold Py.bind at 1 in HR.
  destruct (check_image cls env (o1, tr ++ l1)) as [r2 [o2 tr2]].
  unfold object_after, trace_after in Hty, Htr2; simpl in Hty, Htr2. subst tr2.
  assert (only_type_and_size (with_created env o) o2) as H2.
  { etransitivity; [exact H1 | apply only_type_type_and_size, Hty]. }
  assert (Forall (fun ev => ev <> EvModelSave) (l1 ++ l2)) as Hn2.
  { apply Forall_app. split; [exact Hn1|].
    eapply Forall_impl; [exact Hl2|]. intros ev Hev ->. discriminate Hev. }
  destruct r2 as [[]|e].
  2:{ exists o2. split; [exact H2|]. right. subst R.
      split; [reflexivity|]. split; [exists e; reflexivity|].
      exists (l1 ++ l2). split; [symmetry; apply app_assoc | exact Hn2]. }
  exists o2. split; [exact H2|]. subst R.
  destruct (after_check_object o2 ((tr ++ l1) ++ l2))
    as [H | (H & He & l3 & Htr3 & Hn3)]; [left; exact H|].
  right. split; [exact H|]. split; [exact He|].
  exists ((l1 ++ l2) ++ l3). split.
  - rewrite Htr3, !app_assoc. reflexivity.
  - apply Forall_app. split; assumption.
Qed.

(** The deletes of one [save]: the superseded file if the cleanup is
    reached, nothing if an exception escapes before. *)
Lemma save_deletes (o : t) (tr : list event) :
  deletes (trace_after (save cls env (o, tr))) = deletes tr ++ superseded o
  \/ (exists e, outcome (save cls env (o, tr)) = Raise e
                /\ deletes (trace_after (save cls env (o, tr))) = deletes tr).
Proof.
  destruct (save_before_cleanup o tr) as [(o2 & l & Hsame & Hl & ->)|Hr];
    [left | right; exact Hr].
  rewrite after_check_deletes, deletes_app, Hl, app_nil_r.
  rewrite (superseded_same_file _ _ Hsame). reflexivity.
Qed.

End SavePhases.

Lemma resave_no_delete (cls : MediaFileBase.Class)
      (steps : list (MediaFileBase.Env * string))
      (s : MediaFileBase.t * list event) :
  MediaFileBase._original_file_name (fst s) = None ->
  deletes (snd (resave cls steps s)) = deletes (snd s).
Proof.
  revert s. induction steps as [|[env name] steps IH]; intros [o tr] Hnone;
    [reflexivity|].
  simpl in *.
  set (o' := MediaFileBase.set_file_name name o).
  destruct (save_frame cls env (o', tr)) as (Horig & _).
  assert (superseded o' = []) as Hsup by (unfold superseded; simpl; rewrite Hnone; reflexivity).
  rewrite IH.
  - destruct (save_deletes cls env o' tr) as [H | (e & _ & H)];
      unfold trace_after in H; rewrite H; [rewrite Hsup; apply app_nil_r | reflexivity].
  - unfold object_after in Horig. rewrite Horig. exact Hnone.
Qed.

(* ===================================================================== *)
(** ** Properties of [MediaFileBase.save]                                 *)
(* ===================================================================== *)

Section SaveClaims.
Import MediaFileBase.

(** C2. A file that the name classifies as "image" but that PIL cannot open,
    neither by handle nor by path (an [OSError] or [IOError] both times), is
    reclassified with the sentinel name "***": when no rule but the last
    accepts the sentinel, the stored type is the key of the last rule
    ("other" in the default registry), and the failure does not reach the
    caller: if the storage delete and the inherited save succeed, [save]
    returns normally. *)
Theorem undecodable_image_is_demoted (cls : Class) (env : Env) (o : t)
        (tr : list event) (e1 e2 : exn) (path : string)
        (init : list filetype) (other : filetype) :
  determine_file_type cls (file_name o) = Ok "image" ->
  size_error_caught env = true ->
  image_open_file env = Raise e1 -> Py.is_a e1 [OSError; IOError] = true ->
  file_path env = Ok path ->
  image_open_path env path = Raise e2 -> Py.is_a e2 [OSError; IOError] = true ->
  filetypes cls = init ++ [other] ->
  Forall (rejects "***") init ->
  type (object_after (save cls env (o, tr))) = type_key other
  /\ image_events (trace_after (save cls env (o, tr))) = image_events tr
  /\ ((forall n, storage_delete env n = Ok tt) -> super_save env = Ok tt ->
      outcome (save cls env (o, tr)) = Ok tt).
Proof.
  intros Hdet Hsz H1 He1 Hp H2 He2 Hreg Hrej.
  destruct (save_until_check cls env o tr "image" Hdet Hsz)
    as (o1 & l1 & Hfs & Hl1 & Hsave).
  assert (type o1 = "image") as Hty by (rewrite Hfs; reflexivity).
  assert (save cls env (o, tr)
          = after_check env (set_type (type_key other) o1, tr ++ l1)) as ->.
  { rewrite Hsave. unfold Py.bind at 1.
    rewrite (check_image_run cls env o1 _ Hty).
    unfold rotate_by_exif, Py.bind at 1.
    rewrite (open_image_fails env e1 e2 path _ H1 He1 Hp H2), He2.
    rewrite (determine_file_type_miss cls init other "***" Hreg Hrej).
    reflexivity. }
  destruct (after_check_frame env (set_type (type_key other) o1, tr ++ l1))
    as (Heq & l & Htr & Hl).
  cbn [fst snd] in *.
  split; [rewrite Heq; reflexivity|]. split.
  - rewrite Htr, !image_events_app.
    rewrite (image_events_none l1), (image_events_none l).
    + rewrite !app_nil_r. reflexivity.
    + eapply Forall_impl; [exact Hl|]. intros ev [Hev _]. exact Hev.
    + eapply Forall_impl; [exact Hl1|]. intros ev ->. reflexivity.
  - intros Hd Hs. apply after_check_returns; assumption.
Qed.

Lemma undecodable_image_is_demoted_witness :
  type (object_after (save imported Sample.env_not_an_image
                        (Sample.fresh "picture.jpg", []))) = "other"
  /\ outcome (save imported Sample.env_not_an_image
                (Sample.fresh "picture.jpg", [])) = Ok tt.
Proof.
  destruct (undecodable_image_is_demoted imported Sample.env_not_an_image
              (Sample.fresh "picture.jpg") [] IOError IOError
              "/media/picture.jpg" (take 11 default_filetypes)
              ("other", "Binary", fun _ => true))
    as (Hty & _ & Hout).
  - vm_compute. reflexivity.
  - reflexivity.
  - reflexivity.
  - reflexivity.
  - reflexivity.
  - reflexivity.
  - reflexivity.
  - reflexivity.
  - repeat (constructor; [vm_compute; reflexivity|]). constructor.
  - split; [exact Hty | apply Hout; reflexivity].
Defined.

(** C3. When the instance remembers an original file name and the current
    name differs from it, the cleanup step calls [storage.delete] on the
    original name, once, and does nothing else; a save that returns has
    issued exactly that one delete. An instance that remembers no original
    name (it was constructed without a stored file), or whose name is
    unchanged, issues no delete, and the former never does, however often
    and under whatever names it is saved. *)
Theorem save_deletes_superseded_file (cls : Class) (env : Env) (o : t)
        (tr : list event) :
  (forall orig,
      _original_file_name o = Some orig ->
      PyStr.truthy orig = true ->
      file_name o <> orig ->
      cleanup env (o, tr)
      = (storage_delete env orig, (o, tr ++ [EvStorageDelete orig]))
      /\ (outcome (save cls env (o, tr)) = Ok tt ->
          deletes (trace_after (save cls env (o, tr))) = deletes tr ++ [orig]))
  /\ (_original_file_name o = None
      \/ _original_file_name o = Some (file_name o) ->
      cleanup env (o, tr) = (Ok tt, (o, tr))
      /\ deletes (trace_after (save cls env (o, tr))) = deletes tr)
  /\ (forall i ty created c sz steps,
      deletes (snd (resave cls steps (__init__ i "" ty created c sz, tr)))
      = deletes tr).
Proof.
  split; [|split].
  - intros orig Horig Htruthy Hne.
    assert (String.eqb (file_name o) orig = false) as Hneq
        by (apply String.eqb_neq; exact Hne).
    split.
    + rewrite cleanup_exact, Horig, Htruthy, Hneq. reflexivity.
    + intros Hok.
      destruct (save_deletes cls env o tr) as [H | (e & He & _)];
        [|rewrite He in Hok; discriminate].
      rewrite H. unfold superseded. rewrite Horig, Htruthy, Hneq. reflexivity.
  - intros Hcase.
    assert (superseded o = []) as Hsup.
    { unfold superseded. destruct Hcase as [-> | ->]; [reflexivity|].
      rewrite String.eqb_refl, andb_false_r. reflexivity. }
    split.
    + rewrite cleanup_exact. unfold superseded in Hsup.
      destruct (_original_file_name o) as [orig|]; [|reflexivity].
      destruct (PyStr.truthy orig && negb (String.eqb (file_name o) orig));
        [discriminate | reflexivity].
    + destruct (save_deletes cls env o tr) as [H | (e & _ & H)]; rewrite H;
        [rewrite Hsup; apply app_nil_r | reflexivity].
  - intros i ty created c sz steps.
    apply (resave_no_delete cls steps (__init__ i "" ty created c sz, tr)).
    reflexivity.
Qed.

Lemma save_deletes_superseded_file_witness :
  deletes (trace_after
             (save imported (Sample.env_with (Sample.image_with None))
                (set_file_name "new.png" (Sample.stored "old.jpg" "image" (Some 10)), [])))
  = ["old.jpg"]
  /\ deletes (trace_after
                (save imported (Sample.env_with (Sample.image_with None))
                   (Sample.fresh "new.png", []))) = [].
Proof.
  pose (env := Sample.env_with (Sample.image_with None)).
  split.
  - apply (proj1 (save_deletes_superseded_file imported env
                    (set_file_name "new.png" (Sample.stored "old.jpg" "image" (Some 10)))
                    []) "old.jpg").
    + reflexivity.
    + reflexivity.
    + discriminate.
    + vm_compute. reflexivity.
  - apply (proj1 (proj2 (save_deletes_superseded_file imported env
                           (Sample.fresh "new.png") []))).
    left. reflexivity.
Defined.

(** C4. The orientation tag 274 maps to a rotation of 180 for 3, 270 for
    6, 90 for 8 and to none for every other value, for a missing tag and
    for missing EXIF data. A save of a file classified as image, whose
    image opens and whose EXIF data can be read, rotates the image by that
    angle and writes it back to the path of the file exactly when the angle
    is not zero; when the EXIF data cannot be read nothing is rotated or
    written. *)
Theorem exif_orientation_rotation (cls : Class) (env : Env) (o : t)
        (img : Image) (path : string) :
  (rotation_for (Some 3) = 180 /\ rotation_for (Some 6) = 270
   /\ rotation_for (Some 8) = 90 /\ rotation_for None = 0
   /\ forall v, v <> 3 -> v <> 6 -> v <> 8 -> rotation_for (Some v) = 0)
  /\ (forall exif,
      determine_file_type cls (file_name o) = Ok "image" ->
      size_error_caught env = true ->
      opens_as env img -> image_truthy img = true ->
      _getexif img = Ok exif ->
      file_path env = Ok path ->
      rotate img (rotation_for (exif_get exif 274)) = Ok tt ->
      image_events (trace_after (save cls env (o, [])))
      = (if rotation_for (exif_get exif 274) =? 0 then []
         else [EvRotate (rotation_for (exif_get exif 274)); EvImageSave path])
      /\ (EvImageSave path ∈ trace_after (save cls env (o, []))
          <-> rotation_for (exif_get exif 274) <> 0))
  /\ (forall e,
      determine_file_type cls (file_name o) = Ok "image" ->
      size_error_caught env = true ->
      opens_as env img ->
      _getexif img = Raise e ->
      Py.is_a e [AttributeError; IOError; KeyError] = true ->
      image_events (trace_after (save cls env (o, []))) = []).
Proof.
  split; [|split].
  - repeat (split; [reflexivity|]).
    intros v H3 H6 H8. destruct v as [|p|p]; try reflexivity.
    repeat (destruct p as [p|p|]; try reflexivity; try congruence).
  - intros exif Hdet Hsz Hopen Ht Hx Hp Hrot.
    destruct (save_until_check cls env o [] "image" Hdet Hsz)
      as (o1 & l1 & Hfs & Hl1 & ->).
    assert (type o1 = "image") as Hty by (rewrite Hfs; reflexivity).
    assert (image_events l1 = []) as Hev1.
    { apply image_events_none. eapply Forall_impl; [exact Hl1|].
      intros ev ->. reflexivity. }
    assert (image_events
              (trace_after ((check_image cls env ;;; after_check env) (o1, [] ++ l1)))
            = (if rotation_for (exif_get exif 274) =? 0 then []
               else [EvRotate (rotation_for (exif_get exif 274));
                     EvImageSave path])) as Hev.
    { rewrite after_check_extends.
      rewrite (check_image_rotation_trace cls env img exif path o1 _
                 Hty Hopen Ht Hx Hp Hrot).
      rewrite image_events_app, image_events_app, Hev1. simpl.
      destruct (rotation_for (exif_get exif 274) =? 0); reflexivity. }
    split; [exact Hev|].
    assert (forall ev, is_image_event ev = true ->
                       ev ∈ trace_after
                              ((check_image cls env ;;; after_check env) (o1, [] ++ l1))
                       <-> ev ∈ image_events
                                 (trace_after
                                    ((check_image cls env ;;; after_check env)
                                       (o1, [] ++ l1)))) as Hmem.
    { intros ev Hi. unfold image_events. rewrite list_elem_of_filter. tauto. }
    rewrite (Hmem (EvImageSave path) eq_refl), Hev.
    destruct (rotation_for (exif_get exif 274) =? 0) eqn:Hz.
    + apply Z.eqb_eq in Hz. split; [intros Hin; inversion Hin | intros Hne; contradiction].
    + apply Z.eqb_neq in Hz. split; [intros _; exact Hz | intros _; right; left].
  - intros e Hdet Hsz Hopen Hx He.
    destruct (save_until_check cls env o [] "image" Hdet Hsz)
      as (o1 & l1 & Hfs & Hl1 & ->).
    rewrite after_check_extends.
    rewrite (check_image_no_exif_trace cls env img e o1 _ Hopen Hx He).
    unfold trace_after. simpl. apply image_events_none.
    eapply Forall_impl; [exact Hl1|]. intros ev ->. reflexivity.
Qed.

Lemma exif_orientation_rotation_witness :
  rotation_for (Some 1) = 0
  /\ image_events
    (trace_after (save imported (Sample.env_with (Sample.image_with (oriented 6)))
                    (Sample.fresh "picture.jpg", [])))
  = [EvRotate 270; EvImageSave "/media/picture.jpg"]
  /\ image_events
       (trace_after (save imported (Sample.env_with (Sample.image_with (oriented 1)))
                       (Sample.fresh "picture.jpg", []))) = []
  /\ image_events
       (trace_after (save imported (Sample.env_with Sample.image_exif_error)
                       (Sample.fresh "picture.jpg", []))) = [].
Proof.
  split; [|split; [|split]].
  - apply (proj1 (exif_orientation_rotation imported
                    (Sample.env_with (Sample.image_with (oriented 6)))
                    (Sample.fresh "picture.jpg")
                    (Sample.image_with (oriented 6)) "/media/picture.jpg"));
      discriminate.
  - apply (proj1 (proj2 (exif_orientation_rotation imported
                           (Sample.env_with (Sample.image_with (oriented 6)))
                           (Sample.fresh "picture.jpg")
                           (Sample.image_with (oriented 6))
                           "/media/picture.jpg")) (oriented 6)).
    + vm_compute. reflexivity.
    + reflexivity.
    + left. reflexivity.
    + reflexivity.
    + reflexivity.
    + reflexivity.
    + reflexivity.
  - apply (proj1 (proj2 (exif_orientation_rotation imported
                           (Sample.env_with (Sample.image_with (oriented 1)))
                           (Sample.fresh "picture.jpg")
                           (Sample.image_with (oriented 1))
                           "/media/picture.jpg")) (oriented 1)).
    + vm_compute. reflexivity.
    + reflexivity.
    + left. reflexivity.
    + reflexivity.
    + reflexivity.
    + reflexivity.
    + reflexivity.
  - apply (proj2 (proj2 (exif_orientation_rotation imported
                           (Sample.env_with Sample.image_exif_error)
                           (Sample.fresh "picture.jpg")
                           Sample.image_exif_error
                           "/media/picture.jpg")) KeyError).
    + vm_compute. reflexivity.
    + reflexivity.
    + left. reflexivity.
    + reflexivity.
    + reflexivity.
Defined.

(** C5, as stated, fails: "picture.jpg" that PIL cannot open is saved with
    type "other", while the classification of its name is "image". *)
Lemma type_is_classification_counterexample :
  outcome (save imported Sample.env_not_an_image
             (Sample.fresh "picture.jpg", [])) = Ok tt
  /\ Ok (type (object_after (save imported Sample.env_not_an_image
                               (Sample.fresh "picture.jpg", []))))
     <> determine_file_type imported
          (file_name (object_after (save imported Sample.env_not_an_image
                                      (Sample.fresh "picture.jpg", [])))).
Proof. split; [vm_compute; reflexivity | vm_compute; discriminate]. Qed.

(** C5, amended. With a registry that is not empty, after every save,
    whether it returns or raises, the stored type has been derived during
    that save from the file name the instance had when [save] was called:
    it is the classification of that name, unless the name classifies as
    "image" and the image block raises an [OSError] or [IOError], which
    [save] catches: then it is the classification of the sentinel "***".
    The value the type field held before the save plays no part. The
    inherited save, which runs after the type has been assigned, may leave
    the file under another name; the type is not derived again from that
    name, so it is the classification of the current name when the
    inherited save keeps the name. With an empty registry [save] raises
    [IndexError] before it assigns the type. *)
Theorem type_rederived_on_save (cls : Class) (env : Env) (o : t)
        (tr : list event) :
  (filetypes cls = [] ->
   outcome (save cls env (o, tr)) = Raise IndexError
   /\ type (object_after (save cls env (o, tr))) = type o)
  /\ (filetypes cls <> [] ->
      (Ok (type (object_after (save cls env (o, tr))))
       = determine_file_type cls (file_name o)
       \/ (determine_file_type cls (file_name o) = Ok "image"
           /\ Ok (type (object_after (save cls env (o, tr))))
              = determine_file_type cls "***"))
      /\ (determine_file_type cls (file_name o) <> Ok "image"
          \/ (forall e, outcome (rotate_by_exif env (o, tr)) = Raise e ->
                        Py.is_a e [OSError; IOError] = false) ->
          Ok (type (object_after (save cls env (o, tr))))
          = determine_file_type cls (file_name o))
      /\ (determine_file_type cls (file_name o) = Ok "image" ->
          size_error_caught env = true ->
          forall e, outcome (rotate_by_exif env (o, tr)) = Raise e ->
                    Py.is_a e [OSError; IOError] = true ->
                    Ok (type (object_after (save cls env (o, tr))))
                    = determine_file_type cls "***")
      /\ (forall v, save cls env (set_type v o, tr) = save cls env (o, tr))
      /\ (saved_file_name env (file_name o) = file_name o ->
          file_name (object_after (save cls env (o, tr))) = file_name o)).
Proof.
  split.
  { intros Hnil. rewrite save_phases, (determine_file_type_empty cls _ Hnil).
    split; [reflexivity|]. unfold object_after, with_created. simpl.
    destruct (negb (id_truthy (id o)) && negb (is_Some_b (created o)));
      reflexivity. }
  intros Hne.
  destruct (determine_file_type_returns cls (file_name o) Hne) as (k & Hdet).
  destruct (determine_file_type_returns cls "***" Hne) as (k' & Hs).
  rewrite Hdet, Hs.
  assert (forall v, save cls env (set_type v o, tr) = save cls env (o, tr))
    as Hindep.
  { intros v. rewrite !save_phases.
    change (file_name (set_type v o)) with (file_name o). rewrite Hdet.
    assert (set_type k (with_created env (set_type v o))
            = set_type k (with_created env o)) as ->; [|reflexivity].
    unfold with_created. simpl.
    destruct (negb (id_truthy (id o)) && negb (is_Some_b (created o)));
      reflexivity. }
  assert (saved_file_name env (file_name o) = file_name o ->
          file_name (object_after (save cls env (o, tr))) = file_name o)
    as Hname.
  { intros Hkeep.
    destruct (save_object cls env o tr) as (o2 & H2 & Hobj).
    assert (file_name o2 = file_name o) as Hn2.
    { rewrite H2. unfold with_created.
      destruct (negb (id_truthy (id o)) && negb (is_Some_b (created o)));
        reflexivity. }
    destruct Hobj as [-> | [-> _]]; [|exact Hn2].
    unfold inherited_writes. simpl. rewrite Hn2. exact Hkeep. }
  enough (Hmain :
            (type (object_after (save cls env (o, tr))) = k
             \/ (k = "image"
                 /\ type (object_after (save cls env (o, tr))) = k'))
            /\ (k <> "image"
                \/ (forall e, outcome (rotate_by_exif env (o, tr)) = Raise e ->
                              Py.is_a e [OSError; IOError] = false) ->
                type (object_after (save cls env (o, tr))) = k)
            /\ (k = "image" ->
                size_error_caught env = true ->
                forall e, outcome (rotate_by_exif env (o, tr)) = Raise e ->
                          Py.is_a e [OSError; IOError] = true ->
                          type (object_after (save cls env (o, tr))) = k')).
  { destruct Hmain as (H1 & H2 & H3). split; [|split; [|split; [|split]]].
    - destruct H1 as [-> | [-> ->]]; [left | right; split]; reflexivity.
    - intros [Hk | Hun]; f_equal; apply H2; [left; congruence | right; exact Hun].
    - intros [= ->] Hsz e He Hc. f_equal. exact (H3 eq_refl Hsz e He Hc).
    - exact Hindep.
    - exact Hname. }
  remember (save cls env (o, tr)) as R eqn:HR.
  rewrite save_phases, Hdet in HR.
  set (o0 := set_type k (with_created env o)) in *.
  destruct (read_size_frame env (o0, tr)) as (Hfs & _).
  pose proof (read_size_returns env (o0, tr)) as Hret.
  unfold Py.bind at 1 in HR.
  destruct (read_size env (o0, tr)) as [r1 [o1 tr1]].
  unfold object_after in Hfs; simpl in Hfs. unfold outcome in Hret; simpl in Hret.
  assert (type o1 = k) as Hty by (rewrite Hfs; reflexivity).
  destruct (String.eqb k "image") eqn:Hk.
  - apply String.eqb_eq in Hk. rewrite Hk in *. clear Hk.
    destruct r1 as [[]|e1].
    2:{ subst R. unfold object_after; simpl.
        split; [left; exact Hty|]. split; [intros _; exact Hty|].
        intros _ Hsz. specialize (Hret Hsz). discriminate Hret. }
    unfold Py.bind at 1 in HR.
    rewrite (check_image_run cls env o1 tr1 Hty) in HR.
    pose proof (rotate_by_exif_outcome env (o1, tr1) (o, tr)) as Hout.
    destruct (rotate_by_exif_frame env (o1, tr1)) as (Hobj & _).
    destruct (rotate_by_exif env (o1, tr1)) as [r2 [o2 tr2]].
    unfold outcome, object_after in Hout, Hobj; simpl in Hout, Hobj. subst o2.
    destruct r2 as [[]|e2].
    + assert (type (object_after R) = "image") as HtR.
      { subst R. rewrite after_check_type. exact Hty. }
      split; [left; exact HtR|]. split; [intros _; exact HtR|].
      intros _ _ e He. unfold outcome in He. rewrite <- Hout in He.
      discriminate He.
    + destruct (Py.is_a e2 [OSError; IOError]) eqn:Hcaught.
      * rewrite Hs in HR. cbn [fst snd] in HR.
        assert (type (object_after R) = k') as HtR.
        { subst R. rewrite after_check_type. reflexivity. }
        split; [right; split; [reflexivity | exact HtR]|]. split.
        -- intros [Hne' | Hun]; [contradiction|].
           rewrite (Hun e2) in Hcaught; [discriminate Hcaught|].
           unfold outcome. rewrite <- Hout. reflexivity.
        -- intros _ _ e He Hc. exact HtR.
      * assert (type (object_after R) = "image") as HtR.
        { subst R. exact Hty. }
        split; [left; exact HtR|]. split; [intros _; exact HtR|].
        intros _ _ e He Hc. unfold outcome in He. rewrite <- Hout in He.
        injection He as <-. rewrite Hc in Hcaught. discriminate Hcaught.
  - assert (type (object_after R) = k) as HtR.
    { destruct r1 as [[]|e1]; [|subst R; exact Hty].
      unfold Py.bind at 1 in HR.
      rewrite check_image_skip in HR by (rewrite Hty; exact Hk).
      subst R. rewrite after_check_type. exact Hty. }
    split; [left; exact HtR|]. split; [intros _; exact HtR|].
    intros ->. discriminate Hk.
Qed.

Lemma type_rederived_on_save_witness :
  Ok (type (object_after
              (save imported Sample.env_size_unreadable
                 (Sample.stored "notes.txt" "image" None, []))))
  = determine_file_type imported "notes.txt"
  /\ Ok (type (object_after
                 (save imported Sample.env_not_an_image
                    (Sample.fresh "picture.jpg", []))))
     = determine_file_type imported "***".
Proof.
  assert (filetypes imported <> []) as Hne.
  { intros H. apply (f_equal length) in H. vm_compute in H. discriminate H. }
  split.
  - destruct (proj2 (type_rederived_on_save imported Sample.env_size_unreadable
                       (Sample.stored "notes.txt" "image" None) []) Hne)
      as (_ & H & _).
    apply H. left. vm_compute. discriminate.
  - destruct (proj2 (type_rederived_on_save imported Sample.env_not_an_image
                       (Sample.fresh "picture.jpg") []) Hne)
      as (_ & _ & H & _).
    apply (H ltac:(vm_compute; reflexivity) eq_refl IOError);
      vm_compute; reflexivity.
Defined.

(** C8, as stated, fails where it says the field is left null: a stored
    record whose size was 10 keeps 10 when the size can no longer be read. *)
Lemma size_failure_leaves_null_counterexample :
  file_size_read Sample.env_size_unreadable = Raise OSError
  /\ outcome (save imported Sample.env_size_unreadable
                (Sample.stored "notes.txt" "txt" (Some 10), [])) = Ok tt
  /\ file_size (object_after
                  (save imported Sample.env_size_unreadable
                     (Sample.stored "notes.txt" "txt" (Some 10), [])))
     <> None.
Proof.
  split; [reflexivity|].
  split; [vm_compute; reflexivity | vm_compute; discriminate].
Qed.

(** C8, amended. When [self.file.size] raises an [OSError], [IOError] or
    [ValueError], the size step logs one error and leaves the object as it
    is, so [file_size] keeps the value it had before the save (null only
    if it was null); the save goes on with the image check exactly as from
    that state, and whether it returns or raises is what it would have been
    had the size been read. *)
Theorem size_failure_logged_not_fatal (cls : Class) (env : Env) (o : t)
        (tr : list event) (e : exn) :
  PyStr.truthy (file_name o) = true ->
  file_size_read env = Raise e ->
  Py.is_a e [OSError; IOError; ValueError] = true ->
  read_size env (o, tr) = (Ok tt, (o, tr ++ [EvLogError]))
  /\ file_size (object_after (save cls env (o, tr))) = file_size o
  /\ (forall k, determine_file_type cls (file_name o) = Ok k ->
      save cls env (o, tr)
      = (check_image cls env ;;; after_check env)
          (set_type k (with_created env o), tr ++ [EvLogError]))
  /\ (forall n, outcome (save cls env (o, tr))
                = outcome (save cls (with_file_size_read (Ok n) env) (o, tr))).
Proof.
  intros Hfile Hsize Hcaught.
  assert (forall k, determine_file_type cls (file_name o) = Ok k ->
                    save cls env (o, tr)
                    = (check_image cls env ;;; after_check env)
                        (set_type k (with_created env o), tr ++ [EvLogError]))
    as Hgo.
  { intros k Hdet. rewrite save_phases, Hdet. unfold Py.bind at 1.
    rewrite (read_size_caught env _ tr e); [reflexivity| |exact Hsize|exact Hcaught].
    unfold with_created.
    destruct (negb (id_truthy (id o)) && negb (is_Some_b (created o)));
      exact Hfile. }
  assert (file_size (with_created env o) = file_size o) as Hwc.
  { unfold with_created.
    destruct (negb (id_truthy (id o)) && negb (is_Some_b (created o)));
      reflexivity. }
  split; [exact (read_size_caught env o tr e Hfile Hsize Hcaught)|].
  split; [|split; [exact Hgo|]].
  - destruct (determine_file_type cls (file_name o)) as [k|e0] eqn:Hdet.
    + rewrite (Hgo k eq_refl).
      destruct (check_after_frame cls env
                  (set_type k (with_created env o), tr ++ [EvLogError]))
        as (Hty & _).
      simpl in Hty. rewrite Hty. simpl. exact Hwc.
    + rewrite save_phases, Hdet. exact Hwc.
  - intros n.
    destruct (determine_file_type cls (file_name o)) as [k|e0] eqn:Hdet.
    + assert (save cls (with_file_size_read (Ok n) env) (o, tr)
              = (check_image cls env ;;; after_check env)
                  (set_file_size (Some n) (set_type k (with_created env o)), tr))
        as ->.
      { rewrite save_phases, Hdet. unfold Py.bind at 1.
        rewrite (read_size_ok (with_file_size_read (Ok n) env) _ tr n);
          [reflexivity| |reflexivity].
        unfold with_created. simpl.
        destruct (negb (id_truthy (id o)) && negb (is_Some_b (created o)));
          exact Hfile. }
      rewrite (Hgo k eq_refl).
      apply check_after_outcome; reflexivity.
    + rewrite !save_phases, Hdet. reflexivity.
Qed.

Lemma size_failure_logged_not_fatal_witness :
  trace_after (read_size Sample.env_size_unreadable
                 (Sample.stored "notes.txt" "txt" None, []))
  = [EvLogError]
  /\ file_size (object_after
                  (save imported Sample.env_size_unreadable
                     (Sample.stored "notes.txt" "txt" None, []))) = None
  /\ outcome (save imported Sample.env_size_unreadable
                (Sample.stored "notes.txt" "txt" None, [])) = Ok tt.
Proof.
  destruct (size_failure_logged_not_fatal imported Sample.env_size_unreadable
              (Sample.stored "notes.txt" "txt" None) [] OSError)
    as (Hlog & Hsize & _ & Hout).
  - reflexivity.
  - reflexivity.
  - reflexivity.
  - split; [rewrite Hlog; reflexivity|]. split; [exact Hsize|].
    rewrite (Hout 2048). vm_compute. reflexivity.
Defined.

End SaveClaims.

(* ===================================================================== *)
(** ** Properties of [Category.save]                                      *)
(* ===================================================================== *)

Section CategoryClaims.

Example slugify_test_category :
  Slugify.slugify "  Test -- Category! " = "test-category".
Proof. vm_compute. reflexivity. Qed.

(** C9. Saving a category whose slug is empty sets the slug to
    [slugify(title)], so that with a [slugify] that maps "Test Category" to
    "test-category" the category titled "Test Category" gets that slug;
    saving a category whose slug is not empty leaves the slug as it is.
    Title and parent are never touched, and the inherited save is called
    once. *)
Theorem category_save_slug (slugify : string -> string)
        (super_save : result unit) (c : Category.t) :
  slugify "Test Category" = "test-category" ->
  (Category.slug c = "" ->
   Category.slug (Category.saved slugify super_save c)
   = slugify (Category.title c))
  /\ (Category.slug c <> "" ->
      Category.slug (Category.saved slugify super_save c) = Category.slug c)
  /\ (forall parent,
      Category.slug
        (Category.saved slugify super_save
           (Category.Build "Test Category" parent ""))
      = "test-category")
  /\ Category.title (Category.saved slugify super_save c) = Category.title c
  /\ Category.parent (Category.saved slugify super_save c) = Category.parent c
  /\ Category.save slugify super_save (c, [])
     = (super_save, (Category.saved slugify super_save c, [EvModelSave])).
Proof.
  intros Hslug.
  unfold Category.saved, Category.save, Py.bind, Py.self, Py.when, Py.modify,
    Py.emit, Py.lift, Py.ret, PyStr.truthy.
  destruct c as [title parent slug]. simpl.
  split; [|split; [|split; [|split; [|split]]]].
  - intros ->. reflexivity.
  - intros Hne. apply String.eqb_neq in Hne. rewrite Hne. reflexivity.
  - intros p. exact Hslug.
  - destruct (String.eqb slug ""); reflexivity.
  - destruct (String.eqb slug ""); reflexivity.
  - destruct (String.eqb slug ""); simpl; destruct super_save as [[]|e];
      reflexivity.
Qed.

Lemma category_save_slug_witness :
  Category.slug
    (Category.saved Slugify.slugify (Ok tt)
       (Category.Build "Test Category" None ""))
  = "test-category"
  /\ Category.slug
       (Category.saved Slugify.slugify (Ok tt)
          (Category.Build "Test Category" None "my-slug"))
     = "my-slug".
Proof.
  split.
  - apply (proj1 (proj2 (proj2 (category_save_slug Slugify.slugify (Ok tt)
                                  (Category.Build "Test Category" None "")
                                  ltac:(vm_compute; reflexivity))))).
  - apply (proj1 (proj2 (category_save_slug Slugify.slugify (Ok tt)
                           (Category.Build "Test Category" None "my-slug")
                           ltac:(vm_compute; reflexivity)))).
    discriminate.
Defined.

End CategoryClaims.

(* ===================================================================== *)
(** ** Further properties of [MediaFileBase.save]                         *)
(* ===================================================================== *)

Section SaveMore.
Import MediaFileBase.

(** X1. Whether it returns or raises, the statements of [save] write
    nothing on the instance but [type], [file_size] and, for a record
    without primary key and without creation time, [created]: the copyright
    and the remembered original name are as before, and so are the primary
    key and the file name up to the call of the inherited save. That call
    is the only one to write them (the key the database assigned, the name
    under which the storage put the file): once it is reached they are
    what it left, and a save that returns has always reached it. *)
Theorem save_writes_only_type_size_created (cls : Class) (env : Env) (o : t)
        (tr : list event) :
  copyright (object_after (save cls env (o, tr))) = copyright o
  /\ _original_file_name (object_after (save cls env (o, tr)))
     = _original_file_name o
  /\ created (object_after (save cls env (o, tr)))
     = match created o with
       | Some c => Some c
       | None => if id_truthy (id o) then None else Some (now env)
       end
  /\ ((id (object_after (save cls env (o, tr))) = saved_id env (id o)
       /\ file_name (object_after (save cls env (o, tr)))
          = saved_file_name env (file_name o))
      \/ (id (object_after (save cls env (o, tr))) = id o
          /\ file_name (object_after (save cls env (o, tr))) = file_name o
          /\ (exists e, outcome (save cls env (o, tr)) = Raise e)
          /\ exists l, trace_after (save cls env (o, tr)) = tr ++ l
                       /\ Forall (fun ev => ev <> EvModelSave) l))
  /\ (outcome (save cls env (o, tr)) = Ok tt ->
      id (object_after (save cls env (o, tr))) = saved_id env (id o)
      /\ file_name (object_after (save cls env (o, tr)))
         = saved_file_name env (file_name o)).
Proof.
  destruct (save_object cls env o tr) as (o2 & H2 & Hobj).
  assert (id o2 = id o /\ file_name o2 = file_name o
          /\ copyright o2 = copyright o
          /\ _original_file_name o2 = _original_file_name o
          /\ created o2 = match created o with
                          | Some c => Some c
                          | None => if id_truthy (id o) then None
                                    else Some (now env)
                          end) as (Hid & Hname & Hc & Horig & Hcr).
  { rewrite H2. unfold with_created.
    destruct (created o) as [c|] eqn:Hcreated, (id_truthy (id o)); simpl;
      rewrite ?Hcreated; repeat split; reflexivity. }
  assert (forall o', o' = inherited_writes env o2 \/ o' = o2 ->
                     copyright o' = copyright o2
                     /\ _original_file_name o' = _original_file_name o2
                     /\ created o' = created o2) as Hkept.
  { intros o' [-> | ->]; repeat split; reflexivity. }
  destruct (Hkept (object_after (save cls env (o, tr)))) as (Hc' & Horig' & Hcr');
    [tauto|].
  rewrite Hc', Horig', Hcr'.
  split; [exact Hc|]. split; [exact Horig|]. split; [exact Hcr|].
  assert (inherited_writes env o2
          = set_id (saved_id env (id o))
              (set_file_name (saved_file_name env (file_name o)) o2)) as Hw.
  { unfold inherited_writes. rewrite Hid, Hname. reflexivity. }
  destruct Hobj as [Hreached | (Hnot & (e & He) & Htr)].
  - rewrite Hreached, Hw. split; [left|intros _]; split; reflexivity.
  - rewrite Hnot, He. split; [|discriminate].
    right. split; [exact Hid|]. split; [exact Hname|]. split; [eauto | exact Htr].
Qed.

Lemma save_writes_only_type_size_created_witness :
  id (object_after
        (save imported
           (Sample.env_upload (Sample.image_with None) "medialibrary/picture.jpg")
           (Sample.fresh "picture.jpg", []))) = Some 1
  /\ file_name
       (object_after
          (save imported
             (Sample.env_upload (Sample.image_with None)
                "medialibrary/picture.jpg")
             (Sample.fresh "picture.jpg", []))) = "medialibrary/picture.jpg".
Proof.
  apply (proj2 (proj2 (proj2 (proj2
           (save_writes_only_type_size_created imported
              (Sample.env_upload (Sample.image_with None)
                 "medialibrary/picture.jpg")
              (Sample.fresh "picture.jpg") []))))).
  vm_compute. reflexivity.
Defined.

Lemma read_size_shape (env : Env) (o : t) (tr : list event) :
  exists r1 o1 l1,
    read_size env (o, tr) = (r1, (o1, tr ++ l1))
    /\ (l1 = [] \/ (l1 = [EvLogError] /\ r1 = Ok tt)).
Proof.
  destruct (PyStr.truthy (file_name o)) eqn:Hf.
  - destruct (file_size_read env) as [n|e] eqn:Hn.
    + exists (Ok tt), (set_file_size (Some n) o), [].
      rewrite app_nil_r. split; [apply read_size_ok; assumption | left; reflexivity].
    + destruct (Py.is_a e [OSError; IOError; ValueError]) eqn:He.
      * exists (Ok tt), o, [EvLogError].
        split; [apply (read_size_caught env o tr e); assumption | right; split; reflexivity].
      * exists (Raise e), o, []. rewrite app_nil_r. split; [|left; reflexivity].
        unfold read_size, Py.bind, Py.self; simpl. rewrite Hf.
        unfold Py.when, Py.try_except, Py.bind, Py.lift. rewrite Hn, He.
        reflexivity.
  - exists (Ok tt), o, []. rewrite app_nil_r.
    split; [apply read_size_skip; assumption | left; reflexivity].
Qed.

Lemma open_image_state (env : Env) (s : t * list event) :
  exists r, open_image env s = (r, s).
Proof.
  unfold open_image, Py.try_except, Py.bind, Py.lift.
  destruct (image_open_file env) as [img|e]; [eauto|].
  destruct (Py.is_a e [OSError; IOError]); [|eauto].
  destruct (file_path env) as [p|e']; [|eauto].
  destruct (image_open_path env p); eauto.
Qed.

Lemma rotate_image_shape (env : Env) (img : Image) (o : t) (tr : list event) :
  exists r l, rotate_image env img (o, tr) = (r, (o, tr ++ l))
              /\ rotation_calls l.
Proof.
  assert (exists r, (Ok tt : result unit, (o, tr)) = (r, (o, tr ++ []))
                    /\ rotation_calls []) as Hnone.
  { exists (Ok tt). rewrite app_nil_r. split; [reflexivity | left; reflexivity]. }
  unfold rotate_image, Py.when.
  destruct (image_truthy img); [|destruct Hnone as (r & ? & ?); eauto].
  unfold Py.bind at 1.
  assert (exists exif,
             Py.try_except
               (Py.try_except (Py.lift (_getexif img)) [AttributeError; IOError]
                  (fun _ => Py.ret None)) [KeyError] (fun _ => Py.ret None) (o, tr)
             = (Ok exif, (o, tr))
             \/ exists e,
               Py.try_except
                 (Py.try_except (Py.lift (_getexif img)) [AttributeError; IOError]
                    (fun _ => Py.ret None)) [KeyError] (fun _ => Py.ret None) (o, tr)
               = (Raise e, (o, tr))) as (exif & [-> | (e & ->)]).
  { unfold Py.try_except, Py.lift, Py.ret.
    destruct (_getexif img) as [x|e]; [exists x; left; reflexivity|].
    exists None.
    destruct (Py.is_a e [AttributeError; IOError]); [left; reflexivity|].
    destruct (Py.is_a e [KeyError]); [left; reflexivity | right; eauto]. }
  2:{ exists (Raise e), []. rewrite app_nil_r. split; [reflexivity | left; reflexivity]. }
  destruct (exif_truthy exif); [|destruct Hnone as (r & ? & ?); eauto].
  cbv zeta.
  destruct (rotation_for (exif_get exif 274) =? 0) eqn:Hz; simpl;
    [destruct Hnone as (r & ? & ?); eauto|].
  apply Z.eqb_neq in Hz.
  unfold Py.bind, Py.emit, Py.lift; simpl.
  destruct (rotate img _) as [[]|e].
  2:{ exists (Raise e), [EvRotate (rotation_for (exif_get exif 274))].
      split; [reflexivity|]. right. eexists. split; [exact Hz | left; reflexivity]. }
  destruct (file_path env) as [p|e].
  2:{ exists (Raise e), [EvRotate (rotation_for (exif_get exif 274))].
      split; [reflexivity|]. right. eexists. split; [exact Hz | left; reflexivity]. }
  exists (image_save img p),
    [EvRotate (rotation_for (exif_get exif 274)); EvImageSave p].
  split.
  - rewrite <- app_assoc. simpl. destruct (image_save img p) as [[]|e]; reflexivity.
  - right. eexists. split; [exact Hz | right; eauto].
Qed.

Lemma check_image_shape (cls : Class) (env : Env) (o : t) (tr : list event) :
  exists r o2 l, check_image cls env (o, tr) = (r, (o2, tr ++ l))
                 /\ rotation_calls l.
Proof.
  destruct (String.eqb (type o) "image") eqn:Hty.
  - apply String.eqb_eq in Hty. rewrite (check_image_run cls env o tr Hty).
    unfold rotate_by_exif, Py.bind.
    destruct (open_image_state env (o, tr)) as ([img|e] & ->).
    + destruct (rotate_image_shape env img o tr) as (r & l & -> & Hl).
      destruct r as [[]|e]; [eauto 6|].
      destruct (Py.is_a e [OSError; IOError]); [|eauto 6].
      destruct (determine_file_type cls "***"); simpl; eauto 6.
    + assert (rotation_calls []) as Hnil by (left; reflexivity).
      destruct (Py.is_a e [OSError; IOError]).
      * destruct (determine_file_type cls "***"); simpl;
          eexists _, _, []; rewrite app_nil_r; eauto.
      * eexists _, _, []; rewrite app_nil_r; eauto.
  - rewrite (check_image_skip cls env o tr Hty).
    exists (Ok tt), o, []. rewrite app_nil_r. split; [reflexivity | left; reflexivity].
Qed.

(** X2. The outside calls of one [save] always come in this order: at
    most one error log, then the rotation calls (a rotation by a non-zero
    angle, possibly followed by the write), then at most one delete, of the
    remembered original name, then the inherited save, then the purge of
    the translation cache. The inherited save is called at most once and
    never before the delete, and [save] returns normally exactly when the
    purge is reached. *)
Theorem save_call_order (cls : Class) (env : Env) (o : t) (tr : list event) :
  exists l1 l2 l3 l4,
    trace_after (save cls env (o, tr)) = tr ++ l1 ++ l2 ++ l3 ++ l4
    /\ (l1 = [] \/ l1 = [EvLogError])
    /\ rotation_calls l2
    /\ (l3 = [] \/ exists n, _original_file_name o = Some n
                             /\ l3 = [EvStorageDelete n])
    /\ (l4 = [] \/ l4 = [EvModelSave]
        \/ l4 = [EvModelSave; EvPurgeTranslationCache])
    /\ (outcome (save cls env (o, tr)) = Ok tt
        <-> l4 = [EvModelSave; EvPurgeTranslationCache]).
Proof.
  assert (rotation_calls []) as Hnil by (left; reflexivity).
  remember (save cls env (o, tr)) as R eqn:HR. rewrite save_phases in HR.
  destruct (determine_file_type cls (file_name o)) as [k|e0].
  2:{ exists [], [], [], []. subst R. unfold trace_after, outcome; simpl.
      rewrite app_nil_r. repeat split; auto; discriminate. }
  assert (_original_file_name (set_type k (with_created env o))
          = _original_file_name o) as Horig0
      by apply (with_created_same_file env o k).
  set (o0 := set_type k (with_created env o)) in *.
  destruct (read_size_shape env o0 tr) as (r1 & o1 & l1 & Hrs & Hl1).
  destruct (read_size_frame env (o0, tr)) as (Hfs & _).
  unfold Py.bind at 1 in HR. rewrite Hrs in HR, Hfs.
  unfold object_after in Hfs; simpl in Hfs.
  destruct r1 as [[]|e1].
  2:{ exists l1, [], [], []. subst R. unfold trace_after, outcome; simpl.
      rewrite !app_nil_r. destruct Hl1 as [-> | [-> [=]]].
      repeat split; auto; discriminate. }
  assert (l1 = [] \/ l1 = [EvLogError]) as Hl1' by tauto.
  destruct (check_image_shape cls env o1 (tr ++ l1)) as (r2 & o2 & l2 & Hck & Hl2).
  destruct (check_image_frame cls env (o1, tr ++ l1)) as (Hty & _).
  unfold Py.bind at 1 in HR. rewrite Hck in HR, Hty.
  unfold object_after in Hty; simpl in Hty.
  destruct r2 as [[]|e2].
  2:{ exists l1, l2, [], []. subst R. unfold trace_after, outcome; simpl.
      rewrite !app_nil_r, <- app_assoc.
      repeat split; auto; discriminate. }
  assert (_original_file_name o2 = _original_file_name o) as Horig.
  { rewrite Hty, Hfs. exact Horig0. }
  unfold after_check, Py.bind at 1 in HR. rewrite cleanup_exact in HR.
  assert (forall l3,
             exists l4,
               trace_after ((inherited_save env ;;;
                             Py.emit EvPurgeTranslationCache)
                              (o2, ((tr ++ l1) ++ l2) ++ l3))
               = tr ++ l1 ++ l2 ++ l3 ++ l4
               /\ (l4 = [] \/ l4 = [EvModelSave]
                   \/ l4 = [EvModelSave; EvPurgeTranslationCache])
               /\ (outcome ((inherited_save env ;;;
                             Py.emit EvPurgeTranslationCache)
                              (o2, ((tr ++ l1) ++ l2) ++ l3)) = Ok tt
                   <-> l4 = [EvModelSave; EvPurgeTranslationCache])) as Hrest.
  { intros l3. rewrite (inherited_save_exact env).
    unfold trace_after, outcome.
    destruct (super_save env) as [[]|e3]; simpl.
    - exists [EvModelSave; EvPurgeTranslationCache].
      rewrite <- !app_assoc. simpl. repeat split; auto.
    - exists [EvModelSave]. rewrite <- !app_assoc. simpl.
      repeat split; auto; discriminate. }
  destruct (_original_file_name o2) as [orig|] eqn:Ho2.
  - destruct (PyStr.truthy orig && negb (String.eqb (file_name o2) orig)).
    + assert (exists n, _original_file_name o = Some n
                        /\ [EvStorageDelete orig] = [EvStorageDelete n]) as Hdel
          by (exists orig; rewrite <- Horig; auto).
      destruct (storage_delete env orig) as [[]|e3].
      * destruct (Hrest [EvStorageDelete orig]) as (l4 & H1 & H2 & H3).
        exists l1, l2, [EvStorageDelete orig], l4. subst R. tauto.
      * exists l1, l2, [EvStorageDelete orig], []. subst R.
        unfold trace_after, outcome; simpl. rewrite <- !app_assoc.
        repeat split; auto; discriminate.
    + destruct (Hrest []) as (l4 & H1 & H2 & H3).
      rewrite app_nil_r in H1, H3.
      exists l1, l2, [], l4. subst R. tauto.
  - destruct (Hrest []) as (l4 & H1 & H2 & H3).
    rewrite app_nil_r in H1, H3.
    exists l1, l2, [], l4. subst R. tauto.
Qed.

(** X3. An exception that leaves the body of the outer [try] of the image
    block (lines 181-209), that is, one the inner handlers around
    [_getexif()] did not catch, and that is neither an [OSError] nor an
    [IOError], is not handled: [save] raises it, the type stays "image",
    and up to then nothing has been called but the logger and the image:
    no file is deleted and the record is not written. *)
Theorem uncaught_image_error_aborts_save (cls : Class) (env : Env) (o : t)
        (tr : list event) (e : exn) :
  determine_file_type cls (file_name o) = Ok "image" ->
  size_error_caught env = true ->
  outcome (rotate_by_exif env (o, tr)) = Raise e ->
  Py.is_a e [OSError; IOError] = false ->
  outcome (save cls env (o, tr)) = Raise e
  /\ type (object_after (save cls env (o, tr))) = "image"
  /\ exists l, trace_after (save cls env (o, tr)) = tr ++ l
               /\ Forall (fun ev => ev = EvLogError \/ is_image_event ev = true) l.
Proof.
  intros Hdet Hsz Hraise Hun.
  destruct (save_until_check cls env o tr "image" Hdet Hsz)
    as (o1 & l1 & Hfs & Hl1 & Hsave).
  assert (type o1 = "image") as Hty by (rewrite Hfs; reflexivity).
  pose proof (rotate_by_exif_outcome env (o1, tr ++ l1) (o, tr)) as Hout.
  rewrite Hraise in Hout.
  destruct (rotate_by_exif_frame env (o1, tr ++ l1)) as (Hobj & l2 & Htr2 & Hl2).
  assert (save cls env (o, tr) = (Raise e, (o1, (tr ++ l1) ++ l2))) as ->.
  { rewrite Hsave. unfold Py.bind at 1.
    rewrite (check_image_run cls env o1 _ Hty).
    destruct (rotate_by_exif env (o1, tr ++ l1)) as [r [o2 tr2]].
    unfold outcome, object_after, trace_after in Hout, Hobj, Htr2.
    simpl in Hout, Hobj, Htr2. subst r o2 tr2. rewrite Hun. reflexivity. }
  split; [reflexivity|]. split; [exact Hty|].
  exists (l1 ++ l2). split; [apply eq_sym, app_assoc|].
  apply Forall_app. split.
  - eapply Forall_impl; [exact Hl1|]. intros ev ->. left. reflexivity.
  - eapply Forall_impl; [exact Hl2|]. intros ev Hev. right. exact Hev.
Qed.

Lemma uncaught_image_error_aborts_save_witness :
  outcome (save imported (Sample.env_open_raises ValueError)
             (set_file_name "new.jpg" (Sample.stored "old.jpg" "image" (Some 10)),
              [])) = Raise ValueError
  /\ type (object_after
             (save imported (Sample.env_open_raises ValueError)
                (set_file_name "new.jpg"
                   (Sample.stored "old.jpg" "image" (Some 10)), [])))
     = "image".
Proof.
  destruct (uncaught_image_error_aborts_save imported
              (Sample.env_open_raises ValueError)
              (set_file_name "new.jpg" (Sample.stored "old.jpg" "image" (Some 10)))
              [] ValueError) as (Hout & Hty & _).
  - vm_compute. reflexivity.
  - reflexivity.
  - reflexivity.
  - reflexivity.
  - split; [exact Hout | exact Hty].
Defined.

(** X4. [save] never refreshes the remembered original name. When the
    file of an instance was replaced, a save that returns deletes the
    original file, and a second save of the same instance that returns
    deletes it once more exactly when the name under which the inherited
    save left the new file still differs from the original name; when the
    new file was stored under the original name, which the first save had
    freed, the second save deletes nothing. *)
Theorem resave_deletes_again (cls : Class) (env1 env2 : Env) (o : t)
        (tr : list event) (orig : string) :
  _original_file_name o = Some orig ->
  PyStr.truthy orig = true ->
  file_name o <> orig ->
  outcome (save cls env1 (o, tr)) = Ok tt ->
  outcome (save cls env2 (snd (save cls env1 (o, tr)))) = Ok tt ->
  _original_file_name (object_after (save cls env1 (o, tr))) = Some orig
  /\ file_name (object_after (save cls env1 (o, tr)))
     = saved_file_name env1 (file_name o)
  /\ deletes (trace_after (save cls env1 (o, tr))) = deletes tr ++ [orig]
  /\ (saved_file_name env1 (file_name o) <> orig ->
      deletes (trace_after (save cls env2 (snd (save cls env1 (o, tr)))))
      = deletes tr ++ [orig; orig])
  /\ (saved_file_name env1 (file_name o) = orig ->
      deletes (trace_after (save cls env2 (snd (save cls env1 (o, tr)))))
      = deletes tr ++ [orig]).
Proof.
  intros Horig Htruthy Hne Hok1 Hok2.
  assert (String.eqb (file_name o) orig = false) as Hneq
      by (apply String.eqb_neq; exact Hne).
  assert (superseded o = [orig]) as Hsup.
  { unfold superseded. rewrite Horig, Htruthy, Hneq. reflexivity. }
  destruct (save_frame cls env1 (o, tr)) as (Hsame & _).
  destruct (save_deletes cls env1 o tr) as [H1 | (e & He & _)];
    [|rewrite He in Hok1; discriminate].
  assert (file_name (object_after (save cls env1 (o, tr)))
          = saved_file_name env1 (file_name o)) as Hname.
  { destruct (save_object cls env1 o tr) as (o2 & H2 & [-> | (_ & (e & He) & _)]);
      [|rewrite He in Hok1; discriminate].
    unfold inherited_writes. simpl. rewrite H2. unfold with_created.
    destruct (negb (id_truthy (id o)) && negb (is_Some_b (created o)));
      reflexivity. }
  destruct (save cls env1 (o, tr)) as [r1 [o1 tr1]].
  unfold object_after, trace_after, same_original in Hsame, H1, Hname |- *;
    simpl in Hsame, H1, Hname, Hok2 |- *.
  rewrite Hsame, Horig, H1, Hsup.
  split; [reflexivity|]. split; [exact Hname|]. split; [reflexivity|].
  destruct (save_deletes cls env2 o1 tr1) as [H2 | (e & He & _)];
    [|rewrite He in Hok2; discriminate].
  unfold trace_after in H2. rewrite H2, H1, Hsup. unfold superseded.
  rewrite Hsame, Horig, Htruthy, Hname. split.
  - intros Hdiff. apply String.eqb_neq in Hdiff. rewrite Hdiff.
    rewrite <- app_assoc. reflexivity.
  - intros Heq. rewrite Heq, String.eqb_refl. apply app_nil_r.
Qed.

Lemma resave_deletes_again_witness :
  deletes
    (trace_after
       (save imported (Sample.env_with (Sample.image_with None))
          (snd (save imported (Sample.env_with (Sample.image_with None))
                  (set_file_name "new.png"
                     (Sample.stored "old.jpg" "image" (Some 10)), [])))))
  = ["old.jpg"; "old.jpg"]
  /\ deletes
       (trace_after
          (save imported (Sample.env_with (Sample.image_with None))
             (snd (save imported
                     (Sample.env_upload (Sample.image_with None)
                        "medialibrary/picture.jpg")
                     (set_file_name "picture.jpg"
                        (Sample.stored "medialibrary/picture.jpg" "image"
                           (Some 10)), [])))))
     = ["medialibrary/picture.jpg"].
Proof.
  split.
  - destruct (resave_deletes_again imported
                (Sample.env_with (Sample.image_with None))
                (Sample.env_with (Sample.image_with None))
                (set_file_name "new.png"
                   (Sample.stored "old.jpg" "image" (Some 10)))
                [] "old.jpg") as (_ & _ & _ & H & _).
    + reflexivity.
    + reflexivity.
    + discriminate.
    + vm_compute. reflexivity.
    + vm_compute. reflexivity.
    + apply H. discriminate.
  - destruct (resave_deletes_again imported
                (Sample.env_upload (Sample.image_with None)
                   "medialibrary/picture.jpg")
                (Sample.env_with (Sample.image_with None))
                (set_file_name "picture.jpg"
                   (Sample.stored "medialibrary/picture.jpg" "image"
                      (Some 10)))
                [] "medialibrary/picture.jpg") as (_ & _ & _ & _ & H).
    + reflexivity.
    + reflexivity.
    + discriminate.
    + vm_compute. reflexivity.
    + vm_compute. reflexivity.
    + apply H. reflexivity.
Defined.

End SaveMore.

(* ===================================================================== *)
(** ** Further properties of [register_filetypes]                         *)
(* ===================================================================== *)

Section RegistryMore.
Import MediaFileBase.

Lemma dict_from (pairs : list (string * string)) (m : gmap string string)
      (k : string) :
  foldl (fun m kv => <[fst kv := snd kv]> m) m pairs !! k
  = match dict pairs !! k with
    | Some l => Some l
    | None => m !! k
    end.
Proof.
  unfold dict. revert m.
  induction pairs as [|[k' l'] pairs IH] using rev_ind; intros m; simpl.
  - rewrite lookup_empty. reflexivity.
  - rewrite !foldl_app. simpl.
    destruct (decide (k' = k)) as [->|Hne].
    + rewrite !lookup_insert_eq. reflexivity.
    + rewrite !lookup_insert_ne by exact Hne. apply IH.
Qed.

Lemma dict_app (ps qs : list (string * string)) (k : string) :
  dict (ps ++ qs) !! k
  = match dict qs !! k with
    | Some l => Some l
    | None => dict ps !! k
    end.
Proof. unfold dict at 1. rewrite foldl_app. apply dict_from. Qed.

Lemma dict_lookup_elem (pairs : list (string * string)) (k l : string) :
  dict pairs !! k = Some l -> (k, l) ∈ pairs.
Proof.
  induction pairs as [|[k' l'] pairs IH] using rev_ind.
  - unfold dict. simpl. rewrite lookup_empty. discriminate.
  - rewrite dict_app. unfold dict at 1. simpl.
    destruct (decide (k' = k)) as [->|Hne].
    + rewrite lookup_insert_eq. intros [= ->]. apply elem_of_app. right. left.
    + rewrite lookup_insert_ne, lookup_empty by exact Hne.
      intros H. apply elem_of_app. left. apply IH, H.
Qed.

Lemma dict_lookup_key (pairs : list (string * string)) (k : string) :
  k ∈ map fst pairs -> is_Some (dict pairs !! k).
Proof.
  induction pairs as [|[k' l'] pairs IH] using rev_ind; simpl.
  - intros H. inversion H.
  - rewrite map_app, elem_of_app, dict_app. unfold dict at 1. simpl.
    destruct (decide (k' = k)) as [->|Hne].
    + rewrite lookup_insert_eq. eauto.
    + rewrite lookup_insert_ne, lookup_empty by exact Hne.
      intros [H | H]; [apply IH, H|].
      apply list_elem_of_singleton in H. congruence.
Qed.

(** X5. Registrations compose: registering [a] and then [b] is registering
    [b ++ a] at once, for the three class attributes alike. In particular
    the rules of the later call come first, and registering nothing changes
    no rule. *)
Theorem register_filetypes_twice (cls : Class) (a b : list filetype) :
  register_filetypes (register_filetypes cls a) b
  = register_filetypes cls (b ++ a)
  /\ filetypes (register_filetypes cls []) = filetypes cls.
Proof.
  split; [|reflexivity].
  unfold register_filetypes. simpl. rewrite app_assoc. reflexivity.
Qed.

(** X6. Whatever [determine_file_type] returns after a registration is a
    registered choice: its key is among the choices of the [type] field
    and [filetypes_dict] has a label for it, one that the choices pair
    with the key. *)
Theorem classified_type_is_a_choice (cls : Class) (types : list filetype)
        (name k : string) :
  determine_file_type (register_filetypes cls types) name = Ok k ->
  k ∈ map fst (type_choices (register_filetypes cls types))
  /\ exists label,
      filetypes_dict (register_filetypes cls types) !! k = Some label
      /\ (k, label) ∈ type_choices (register_filetypes cls types).
Proof.
  intros Hdet.
  assert (exists ft, ft ∈ filetypes (register_filetypes cls types)
                     /\ type_key ft = k) as (ft & Hin & <-).
  { unfold determine_file_type in Hdet.
    destruct (first_match _ name) as [k'|] eqn:Hf.
    - injection Hdet as <-.
      apply first_match_Some_elem in Hf as (ft & Hin & Hk & _). eauto.
    - unfold last_key in Hdet.
      destruct (last _) as [ft|] eqn:Hl; [|discriminate].
      injection Hdet as <-. exists ft. split; [|reflexivity].
      apply last_Some in Hl as [init ->]. apply elem_of_app. right. left. }
  set (fts := filetypes (register_filetypes cls types)) in *.
  assert (type_key ft ∈ map fst (map (fun t => (type_key t, type_name t)) fts))
    as Hkey.
  { rewrite map_map. simpl. apply list_elem_of_fmap. eauto. }
  split; [exact Hkey|].
  destruct (dict_lookup_key _ _ Hkey) as [label Hlabel].
  exists label. split; [exact Hlabel | apply dict_lookup_elem, Hlabel].
Qed.

Lemma classified_type_is_a_choice_witness :
  "pdf" ∈ map fst (type_choices imported)
  /\ exists label, filetypes_dict imported !! "pdf" = Some label
                   /\ ("pdf", label) ∈ type_choices imported.
Proof.
  apply (classified_type_is_a_choice initial default_filetypes "foobar.PDF" "pdf").
  vm_compute. reflexivity.
Defined.

(** X7. A later registration never changes the label [filetypes_dict]
    holds for a key that was registered before, even when it registers
    that key again (the older rule stays behind the newer one in the list,
    and [dict] keeps the last pair); a key that is new gets the label of
    its last new rule. The choices list, in contrast, starts with the new
    pairs. *)
Theorem register_filetypes_keeps_labels (cls : Class)
        (olds news : list filetype) (k : string) :
  filetypes_dict (register_filetypes (register_filetypes cls olds) news) !! k
  = match filetypes_dict (register_filetypes cls olds) !! k with
    | Some label => Some label
    | None => filetypes_dict (register_filetypes initial news) !! k
    end
  /\ type_choices (register_filetypes (register_filetypes cls olds) news)
     = map (fun t => (type_key t, type_name t)) news
       ++ type_choices (register_filetypes cls olds).
Proof.
  split.
  - simpl. rewrite map_app, dict_app, app_nil_r. reflexivity.
  - simpl. rewrite map_app. reflexivity.
Qed.

End RegistryMore.

(* ===================================================================== *)
(** ** The default rules, read as lists of extensions                     *)
(* ===================================================================== *)

Section DefaultRules.
Import MediaFileBase.

Lemma existsb_pointwise {A} (f g : A -> bool) (l : list A) :
  (forall x, f x = g x) -> existsb f l = existsb g l.
Proof. intros H. induction l as [|x l IH]; simpl; [|rewrite H, IH]; reflexivity. Qed.

Lemma existsb_map' {A B} (f : B -> bool) (h : A -> B) (l : list A) :
  existsb f (map h l) = existsb (fun x => f (h x)) l.
Proof. induction l as [|x l IH]; simpl; [|rewrite IH]; reflexivity. Qed.

Lemma existsb_flat_map {A B} (f : B -> bool) (g : A -> list B) (l : list A) :
  existsb f (flat_map g l) = existsb (fun x => existsb f (g x)) l.
Proof.
  induction l as [|x l IH]; simpl; [reflexivity|].
  rewrite existsb_app, IH. reflexivity.
Qed.

Lemma andb_existsb {A} (a : bool) (f : A -> bool) (l : list A) :
  a && existsb f l = existsb (fun x => a && f x) l.
Proof.
  induction l as [|x l IH]; simpl; [apply andb_false_r|].
  rewrite <- IH. destruct a; reflexivity.
Qed.

Lemma existsb_orb {A} (f g : A -> bool) (l : list A) :
  existsb (fun x => f x || g x) l = existsb f l || existsb g l.
Proof.
  induction l as [|x l IH]; simpl; [reflexivity|]. rewrite IH.
  destruct (f x), (g x), (existsb f l); reflexivity.
Qed.

Lemma starts_ci_app (w1 w2 s : string) :
  starts_ci (w1 ++ w2) s = starts_ci w1 s && starts_ci w2 (skip (String.length w1) s).
Proof.
  revert s. induction w1 as [|p w1 IH]; intros s; simpl; [reflexivity|].
  destruct s as [|c s]; [reflexivity|]. rewrite IH, andb_assoc. reflexivity.
Qed.

Lemma skip_app (w1 w2 s : string) :
  skip (String.length (w1 ++ w2)) s
  = skip (String.length w2) (skip (String.length w1) s).
Proof.
  revert s. induction w1 as [|p w1 IH]; intros s; simpl; [reflexivity|].
  destruct s as [|c s]; [|apply IH].
  destruct (String.length w2); reflexivity.
Qed.

(** The matcher on a pattern without [$]: some word of the pattern starts
    the text and the continuation accepts the rest. *)
Lemma match_here_words (r : Re.regex) (s : string) (k : string -> bool) :
  eol_free r = true ->
  Re.match_here true r s k
  = existsb (fun w => starts_ci w s && k (skip (String.length w) s)) (words r).
Proof.
  revert s k. induction r as [|c|cs|r1 IH1 r2 IH2|r1 IH1 r2 IH2|r1 IH1|];
    intros s k Hfree; simpl in *.
  - rewrite orb_false_r. reflexivity.
  - destruct s as [|d s]; simpl; [reflexivity|].
    rewrite orb_false_r, andb_true_r. reflexivity.
  - rewrite existsb_map'. destruct s as [|d s]; simpl.
    + induction cs; simpl; [reflexivity | assumption].
    + rewrite andb_comm, andb_existsb. apply existsb_pointwise.
      intros p. rewrite andb_true_r. apply andb_comm.
  - apply andb_true_iff in Hfree as [H1 H2].
    rewrite IH1 by exact H1. rewrite existsb_flat_map.
    apply existsb_pointwise. intros w1. rewrite existsb_map'.
    rewrite IH2 by exact H2. rewrite andb_existsb.
    apply existsb_pointwise. intros w2.
    rewrite starts_ci_app, skip_app, andb_assoc. reflexivity.
  - apply andb_true_iff in Hfree as [H1 H2].
    rewrite existsb_app, IH1, IH2 by assumption. reflexivity.
  - rewrite existsb_app, IH1 by exact Hfree. simpl.
    rewrite orb_false_r. reflexivity.
  - discriminate.
Qed.

Lemma lower_ascii_idem (c : ascii) :
  PyStr.lower_ascii (PyStr.lower_ascii c) = PyStr.lower_ascii c.
Proof. destruct c as [[] [] [] [] [] [] [] []]; reflexivity. Qed.

Lemma lower_idem (s : string) : PyStr.lower (PyStr.lower s) = PyStr.lower s.
Proof.
  induction s as [|c s IH]; simpl; [reflexivity|].
  rewrite lower_ascii_idem, IH. reflexivity.
Qed.

Lemma lower_ascii_LF (c : ascii) :
  Ascii.eqb (PyStr.lower_ascii c) PyStr.LF = Ascii.eqb c PyStr.LF.
Proof. destruct c as [[] [] [] [] [] [] [] []]; reflexivity. Qed.

Lemma lower_app (s1 s2 : string) :
  PyStr.lower (s1 ++ s2) = (PyStr.lower s1 ++ PyStr.lower s2)%string.
Proof. induction s1 as [|c s1 IH]; simpl; [|rewrite IH]; reflexivity. Qed.

(** A word of the pattern followed by [$]: the whole text is the word, or
    the word and one line feed, letter case apart. *)
Lemma word_at_end (v t : string) :
  starts_ci v t && Re.at_end (skip (String.length v) t)
  = String.eqb (PyStr.lower t) (PyStr.lower v)
    || String.eqb (PyStr.lower t) (PyStr.lower v ++ nl)%string.
Proof.
  revert t. induction v as [|p v IH]; intros t; simpl.
  - destruct t as [|c [|c' t]]; simpl; try reflexivity.
    + rewrite lower_ascii_LF. destruct (Ascii.eqb c PyStr.LF); reflexivity.
    + destruct (Ascii.eqb (PyStr.lower_ascii c) PyStr.LF); reflexivity.
  - destruct t as [|c t]; simpl; [reflexivity|].
    rewrite <- andb_assoc, IH. unfold Re.eq_char.
    rewrite (Ascii.eqb_sym (PyStr.lower_ascii p)).
    destruct (Ascii.eqb (PyStr.lower_ascii c) (PyStr.lower_ascii p)); reflexivity.
Qed.

Lemma ends_in_cons (suffixes : list string) (c : ascii) (f : string) :
  ends_in suffixes (String c f)
  = existsb (String.eqb (PyStr.lower (String c f))) suffixes
    || ends_in suffixes f.
Proof. unfold ends_in. simpl. rewrite <- existsb_orb. reflexivity. Qed.

Lemma ends_in_nil (suffixes : list string) :
  ends_in suffixes "" = existsb (String.eqb "") suffixes.
Proof.
  unfold ends_in. simpl. apply existsb_pointwise. intros x. apply orb_false_r.
Qed.

(** A pattern that ends in [$], tried at the start of [t]: the whole of
    [t] is one of its words, or such a word and one line feed. *)
Lemma match_here_dollar (r : Re.regex) (ws : list string) (t : string) :
  dollar_words r = Some ws ->
  Re.match_here true r t (fun _ => true)
  = existsb (fun w => starts_ci w t && Re.at_end (skip (String.length w) t)) ws.
Proof.
  revert ws t. induction r as [|c|cs|r1 _ r2 IH2|r1 _ r2 _|r1 _|];
    intros ws t H; simpl in H; try discriminate.
  destruct (eol_free r1) eqn:Hfree.
  - destruct (dollar_words r2) as [ws2|]; [|discriminate].
    injection H as <-. simpl.
    rewrite match_here_words by exact Hfree. rewrite existsb_flat_map.
    apply existsb_pointwise. intros w1. rewrite existsb_map'.
    rewrite (IH2 ws2) by reflexivity. rewrite andb_existsb.
    apply existsb_pointwise. intros w2.
    rewrite starts_ci_app, skip_app, andb_assoc. reflexivity.
  - destruct r1; try discriminate. destruct r2; try discriminate.
    injection H as <-. simpl.
    destruct (Re.at_end t); reflexivity.
Qed.

(** [re.compile(pattern, re.IGNORECASE).search(f)] for such a pattern looks
    at the end of the lower-cased name only. *)
Lemma search_dollar (r : Re.regex) (ws : list string) (f : string) :
  dollar_words r = Some ws ->
  Re.search_from true r f
  = ends_in (flat_map (fun w => [PyStr.lower w; (PyStr.lower w ++ nl)%string]) ws)
      f.
Proof.
  intros Hws.
  assert (forall t,
             Re.match_here true r t (fun _ => true)
             = existsb (String.eqb (PyStr.lower t))
                 (flat_map (fun w => [PyStr.lower w; (PyStr.lower w ++ nl)%string])
                    ws)) as Hhere.
  { intros t. rewrite (match_here_dollar r ws t Hws), existsb_flat_map.
    apply existsb_pointwise. intros w. rewrite word_at_end. simpl.
    repeat match goal with
           | |- context [String.eqb ?a ?b] => destruct (String.eqb a b)
           end; reflexivity. }
  induction f as [|c f IH].
  - change (Re.search_from true r "")
      with (Re.match_here true r "" (fun _ => true) || false).
    rewrite Hhere, ends_in_nil. apply orb_false_r.
  - change (Re.search_from true r (String c f))
      with (Re.match_here true r (String c f) (fun _ => true)
            || Re.search_from true r f).
    rewrite Hhere, IH, ends_in_cons. reflexivity.
Qed.

Ltac by_dollar_pattern :=
  intros f; unfold type_test, Re.search; cbn [snd];
  match goal with
  | |- context [Re.compile ?pat] =>
      let c := fresh "c" in
      set (c := Re.compile pat); vm_compute in c; subst c
  end;
  cbv beta iota;
  match goal with
  | |- Re.search_from true ?r f = _ =>
      let ws := eval vm_compute in (dollar_words r) in
      lazymatch ws with
      | Some ?l => rewrite (search_dollar r l f) by (vm_compute; reflexivity)
      end
  end;
  reflexivity.

Ltac by_endswith :=
  intros f; unfold type_test, ends_in; cbn [snd existsb];
  symmetry; apply orb_false_r.

Lemma default_tests_ends_in :
  Forall2 (fun ft suffixes => forall f, type_test ft f = ends_in suffixes f)
    (take 11 default_filetypes) default_suffixes.
Proof.
  repeat (constructor; [first [by_endswith | by_dollar_pattern]|]).
  constructor.
Qed.

(** X8. On a name of ASCII characters each of the eleven specific default
    rules looks at the end of the lower-cased name only. A rule written
    with [endswith] accepts the names that end in its extension; a rule
    written as a pattern [\.(...)$] accepts the names that end in a dot and
    one of its extensions, or in that followed by one final line feed. *)
Theorem default_rules_by_suffix :
  Forall2 (fun ft suffixes =>
             forall f, PyStr.is_ascii f = true ->
                       type_test ft f = ends_in suffixes f)
    (take 11 default_filetypes) default_suffixes.
Proof.
  eapply Forall2_impl; [exact default_tests_ends_in|].
  intros ft suffixes H f _. apply H.
Qed.

Lemma default_rules_by_suffix_witness :
  Re.search true "\.(bmp|jpe?g|jp2|jxr|gif|png|tiff?)$" "Holiday.JPG"
  = ends_in
      (dollar_suffixes
         ["bmp"; "jpeg"; "jpg"; "jp2"; "jxr"; "gif"; "png"; "tiff"; "tif"])
      "Holiday.JPG".
Proof.
  pose (image := ("image", "Image",
                  fun f => Re.search true "\.(bmp|jpe?g|jp2|jxr|gif|png|tiff?)$" f)
                 : filetype).
  destruct (Forall2_lookup_l _ _ _ 0%nat image default_rules_by_suffix eq_refl)
    as (suffixes & Hs & H).
  injection Hs as <-. apply (H "Holiday.JPG"). reflexivity.
Defined.

Lemma endswith_refl (s : string) : PyStr.endswith s s = true.
Proof.
  destruct s as [|c s]; [reflexivity|].
  cbn [PyStr.endswith]. rewrite String.eqb_refl. reflexivity.
Qed.

Lemma endswith_app (s1 s2 : string) : PyStr.endswith (s1 ++ s2) s2 = true.
Proof.
  induction s1 as [|c s1 IH]; simpl; [apply endswith_refl|].
  rewrite IH. apply orb_true_r.
Qed.

(** Two suffixes of one string: one of them is a suffix of the other. *)
Lemma endswith_comparable (s a b : string) :
  PyStr.endswith s a = true -> PyStr.endswith s b = true ->
  PyStr.endswith a b = true \/ PyStr.endswith b a = true.
Proof.
  induction s as [|c s IH]; cbn [PyStr.endswith].
  - rewrite !orb_false_r. intros Ha Hb.
    apply String.eqb_eq in Ha, Hb. subst. left. reflexivity.
  - intros Ha Hb.
    destruct (String.eqb (String c s) a) eqn:Ea.
    { apply String.eqb_eq in Ea. subst a. left.
      cbn [PyStr.endswith]. exact Hb. }
    destruct (String.eqb (String c s) b) eqn:Eb.
    { apply String.eqb_eq in Eb. subst b. right.
      cbn [PyStr.endswith]. rewrite Ea. exact Ha. }
    apply IH; assumption.
Qed.

Lemma ends_in_incomparable (s1 s2 : list string) (f : string) :
  ends_in s1 f = true -> ends_in s2 f = true -> incomparable s1 s2 = true ->
  False.
Proof.
  unfold ends_in, incomparable. intros H1 H2 Hinc.
  apply existsb_exists in H1 as (a & Ha & Hfa).
  apply existsb_exists in H2 as (b & Hb & Hfb).
  rewrite forallb_forall in Hinc. specialize (Hinc a Ha).
  rewrite forallb_forall in Hinc. specialize (Hinc b Hb).
  apply andb_true_iff in Hinc as [Hab Hba].
  destruct (endswith_comparable _ a b Hfa Hfb) as [H | H]; rewrite H in *;
    discriminate.
Qed.

Lemma incomparable_sym (s1 s2 : list string) :
  incomparable s1 s2 = true -> incomparable s2 s1 = true.
Proof.
  unfold incomparable. rewrite !forallb_forall. intros H b Hb.
  rewrite forallb_forall. intros a Ha.
  specialize (H a Ha). rewrite forallb_forall in H.
  rewrite andb_comm. apply H, Hb.
Qed.

Lemma all_incomparable_lookup (l : list (list string)) (i j : nat)
      (si sj : list string) :
  all_incomparable l = true -> (i < j)%nat ->
  l !! i = Some si -> l !! j = Some sj -> incomparable si sj = true.
Proof.
  revert i j. induction l as [|s0 l IH]; intros i j Hall Hlt Hi Hj;
    [discriminate|].
  simpl in Hall. apply andb_true_iff in Hall as [H0 Hrest].
  destruct j as [|j]; [lia|]. destruct i as [|i]; simpl in Hi, Hj.
  - injection Hi as <-. rewrite forallb_forall in H0. apply H0.
    apply list_elem_of_In, list_elem_of_lookup. eauto.
  - apply (IH i j); [assumption | lia | assumption | assumption].
Qed.

Lemma default_suffixes_incomparable : all_incomparable default_suffixes = true.
Proof. vm_compute. reflexivity. Qed.

(** Of the eleven specific default rules at most one accepts a name. *)
Lemma default_rules_exclusive (f : string) (i j : nat) (fi fj : filetype) :
  take 11 default_filetypes !! i = Some fi ->
  take 11 default_filetypes !! j = Some fj ->
  type_test fi f = true -> type_test fj f = true -> i = j.
Proof.
  intros Hi Hj Hti Htj.
  destruct (Forall2_lookup_l _ _ _ _ _ default_tests_ends_in Hi)
    as (si & Hsi & Hci).
  destruct (Forall2_lookup_l _ _ _ _ _ default_tests_ends_in Hj)
    as (sj & Hsj & Hcj).
  rewrite Hci in Hti. rewrite Hcj in Htj.
  destruct (Nat.lt_trichotomy i j) as [Hlt | [Heq | Hgt]]; [|exact Heq|].
  - exfalso. apply (ends_in_incomparable si sj f Hti Htj).
    exact (all_incomparable_lookup _ i j si sj default_suffixes_incomparable
             Hlt Hsi Hsj).
  - exfalso. apply (ends_in_incomparable sj si f Htj Hti).
    exact (all_incomparable_lookup _ j i sj si default_suffixes_incomparable
             Hgt Hsj Hsi).
Qed.

Lemma matching_default_rule (f : string) (ft : filetype) :
  ft ∈ take 11 default_filetypes -> type_test ft f = true ->
  determine_file_type imported f = Ok (type_key ft).
Proof.
  intros Hin Ht. apply list_elem_of_lookup in Hin as [i Hi].
  apply (determine_file_type_hit imported (take i (take 11 default_filetypes))
           (drop (S i) (take 11 default_filetypes)
              ++ [("other", "Binary", fun _ => true)]) ft f).
  - change (filetypes imported)
      with (take 11 default_filetypes ++ [("other", "Binary", fun _ => true)]).
    rewrite <- (take_drop_middle _ i ft Hi) at 1.
    rewrite <- app_assoc. reflexivity.
  - apply Forall_lookup. intros j fj Hj.
    assert ((j < i)%nat) as Hlt.
    { apply lookup_lt_Some in Hj. rewrite length_take in Hj. lia. }
    rewrite lookup_take_lt in Hj by exact Hlt.
    unfold rejects. destruct (type_test fj f) eqn:Htj; [|reflexivity].
    pose proof (default_rules_exclusive f j i fj ft Hj Hi Htj Ht). lia.
  - exact Ht.
Qed.

(** X9. With the default registry, a name accepted by one of the eleven
    specific rules is accepted by no other of them and is classified under
    that rule's key, wherever the rule stands among the eleven; so a name
    that ends, letter case apart, in one of the suffixes of a rule gets the
    key of that rule. *)
Theorem matching_default_rule_decides (f : string) (ft : filetype) :
  ft ∈ take 11 default_filetypes ->
  type_test ft f = true ->
  determine_file_type imported f = Ok (type_key ft)
  /\ (forall ft', ft' ∈ take 11 default_filetypes ->
                  type_test ft' f = true -> ft' = ft)
  /\ (forall suffixes stem x,
         (ft, suffixes) ∈ zip (take 11 default_filetypes) default_suffixes ->
         PyStr.lower x ∈ suffixes ->
         determine_file_type imported (stem ++ x)%string = Ok (type_key ft)).
Proof.
  intros Hin Ht. split; [exact (matching_default_rule f ft Hin Ht)|]. split.
  - intros ft' Hin' Ht'.
    apply list_elem_of_lookup in Hin as [i Hi].
    apply list_elem_of_lookup in Hin' as [j Hj].
    pose proof (default_rules_exclusive f j i ft' ft Hj Hi Ht' Ht) as ->.
    congruence.
  - intros suffixes stem x Hzip Hx.
    apply (matching_default_rule _ ft Hin).
    apply list_elem_of_lookup in Hzip as [i Hi].
    apply lookup_zip_with_Some in Hi as (ft0 & s0 & [= <- <-] & Hfi & Hsi).
    destruct (Forall2_lookup_l _ _ _ _ _ default_tests_ends_in Hfi)
      as (si & Hsi' & Hci).
    rewrite Hsi in Hsi'. injection Hsi' as <-. rewrite Hci.
    unfold ends_in. apply existsb_exists. exists (PyStr.lower x).
    split; [apply list_elem_of_In, Hx|].
    rewrite lower_app. apply endswith_app.
Qed.

Lemma matching_default_rule_decides_witness :
  determine_file_type imported "Holiday.JPG" = Ok "image"
  /\ determine_file_type imported ("report" ++ ".PDF")%string = Ok "pdf".
Proof.
  pose (image := ("image", "Image",
                  fun f => Re.search true "\.(bmp|jpe?g|jp2|jxr|gif|png|tiff?)$" f)
                 : filetype).
  pose (pdf := ("pdf", "PDF document",
                fun f => PyStr.endswith (PyStr.lower f) ".pdf") : filetype).
  split.
  - apply (proj1 (matching_default_rule_decides "Holiday.JPG" image
                    ltac:(apply list_elem_of_lookup; exists 0%nat; reflexivity)
                    ltac:(vm_compute; reflexivity))).
  - apply (proj2 (proj2 (matching_default_rule_decides "x.pdf" pdf
                           ltac:(apply list_elem_of_lookup; exists 3%nat; reflexivity)
                           ltac:(vm_compute; reflexivity)))
             [".pdf"] "report" ".PDF").
    + apply list_elem_of_lookup. exists 3%nat. reflexivity.
    + vm_compute. left.
Defined.

Lemma lower_ascii_below (c : ascii) :
  (N_of_ascii (PyStr.lower_ascii c) <? 128)%N = (N_of_ascii c <? 128)%N.
Proof.
  destruct c as [[] [] [] [] [] [] [] []]; vm_compute; reflexivity.
Qed.

Lemma is_ascii_lower (s : string) :
  PyStr.is_ascii (PyStr.lower s) = PyStr.is_ascii s.
Proof.
  induction s as [|c s IH]; [reflexivity|].
  cbn [PyStr.lower PyStr.is_ascii]. rewrite lower_ascii_below, IH. reflexivity.
Qed.

Lemma ends_in_lower (suffixes : list string) (f g : string) :
  PyStr.lower f = PyStr.lower g -> ends_in suffixes f = ends_in suffixes g.
Proof. unfold ends_in. intros ->. reflexivity. Qed.

Lemma default_tests_Forall (P : filetype -> Prop) :
  (forall ft suffixes, (forall f, type_test ft f = ends_in suffixes f) -> P ft) ->
  P ("other", "Binary", fun _ => true) ->
  Forall P (filetypes imported).
Proof.
  intros Hspec Hother.
  change (filetypes imported)
    with (take 11 default_filetypes ++ [("other", "Binary", fun _ => true)]).
  apply Forall_app. split; [|repeat constructor; exact Hother].
  generalize default_tests_ends_in.
  generalize (take 11 default_filetypes), default_suffixes.
  induction 1 as [|ft sfx l k H _ IH]; constructor; eauto.
Qed.

(** X10. On names of ASCII characters the default classification ignores
    letter case: two such names with the same lower-cased form get the same
    type, and so does such a name and its lower-cased form (which is again
    a name of ASCII characters). *)
Theorem default_classification_ignores_case (f g : string) :
  PyStr.is_ascii f = true ->
  (PyStr.is_ascii g = true ->
   PyStr.lower f = PyStr.lower g ->
   determine_file_type imported f = determine_file_type imported g)
  /\ PyStr.is_ascii (PyStr.lower f) = true
  /\ determine_file_type imported (PyStr.lower f)
     = determine_file_type imported f.
Proof.
  intros Hf.
  assert (forall a b, PyStr.lower a = PyStr.lower b ->
                      determine_file_type imported a
                      = determine_file_type imported b) as H.
  { intros a b Hab. apply determine_file_type_ext.
    apply default_tests_Forall; [|reflexivity].
    intros ft sfx Hft. rewrite !Hft. apply ends_in_lower, Hab. }
  split; [intros _; apply H|].
  split; [rewrite is_ascii_lower; exact Hf | apply H, lower_idem].
Qed.

Lemma default_classification_ignores_case_witness :
  determine_file_type imported "Clip.MoV" = determine_file_type imported "clip.mov"
  /\ determine_file_type imported (PyStr.lower "Clip.MoV")
     = determine_file_type imported "Clip.MoV".
Proof.
  destruct (default_classification_ignores_case "Clip.MoV" "clip.mov" eq_refl)
    as (H1 & _ & H2).
  split; [apply H1; reflexivity | exact H2].
Defined.

Lemma endswith_rules_incomparable_with_newline :
  forallb (fun e => forallb (incomparable [(e ++ nl)%string]) default_suffixes)
    [".pdf"; ".swf"; ".txt"; ".rtf"; ".zip"] = true.
Proof. vm_compute. reflexivity. Qed.

(** X11. A final line feed is treated differently by the two kinds of
    default rule. The pattern rules use [$], which also matches before a
    final line feed, so "x.jpg" followed by a line feed is still an image;
    the [endswith] rules do not, so a name that ends in ".pdf", ".swf",
    ".txt", ".rtf" or ".zip" (in any letter case) followed by a line feed
    is classified "other". *)
Theorem final_line_feed_demotes_endswith_rules (stem x : string) :
  PyStr.lower x ∈ [".pdf"; ".swf"; ".txt"; ".rtf"; ".zip"] ->
  determine_file_type imported (stem ++ x ++ nl)%string = Ok "other"
  /\ determine_file_type imported (stem ++ ".jpg" ++ nl)%string = Ok "image".
Proof.
  intros Hx. split.
  - apply (determine_file_type_miss imported (take 11 default_filetypes)
             ("other", "Binary", fun _ => true)); [reflexivity|].
    assert (PyStr.endswith (PyStr.lower (stem ++ x ++ nl))
              (PyStr.lower x ++ nl)%string = true) as Hend.
    { rewrite !lower_app. change (PyStr.lower nl) with nl. apply endswith_app. }
    pose proof endswith_rules_incomparable_with_newline as Hinc.
    rewrite forallb_forall in Hinc.
    specialize (Hinc (PyStr.lower x) ltac:(apply list_elem_of_In, Hx)).
    rewrite forallb_forall in Hinc.
    generalize default_tests_ends_in.
    generalize (take 11 default_filetypes). revert Hinc.
    generalize default_suffixes.
    intros sfxs Hinc fts HF2.
    induction HF2 as [|ft sfx l k H _ IH]; constructor.
    + unfold rejects. rewrite H.
      destruct (ends_in sfx (stem ++ x ++ nl)) eqn:Hacc; [|reflexivity].
      exfalso.
      apply (ends_in_incomparable [(PyStr.lower x ++ nl)%string] sfx
               (stem ++ x ++ nl)%string).
      * unfold ends_in. simpl. rewrite Hend. reflexivity.
      * exact Hacc.
      * apply Hinc. left. reflexivity.
    + apply IH. intros s Hs. apply Hinc. right. exact Hs.
  - pose (image := ("image", "Image",
                    fun f => Re.search true "\.(bmp|jpe?g|jp2|jxr|gif|png|tiff?)$" f)
                   : filetype).
    apply (matching_default_rule _ image).
    + apply list_elem_of_lookup. exists 0%nat. reflexivity.
    + destruct (Forall2_lookup_l _ _ _ 0%nat image default_tests_ends_in eq_refl)
        as (si & Hsi & Hci).
      rewrite Hci. injection Hsi as <-.
      unfold ends_in. apply existsb_exists. exists (".jpg" ++ nl)%string.
      split; [vm_compute; tauto|].
      rewrite lower_app. apply (endswith_app (PyStr.lower stem) (".jpg" ++ nl)).
Qed.

Lemma final_line_feed_demotes_endswith_rules_witness :
  determine_file_type imported ("report" ++ ".PDF" ++ nl)%string = Ok "other".
Proof.
  apply (proj1 (final_line_feed_demotes_endswith_rules "report" ".PDF"
                  ltac:(vm_compute; left))).
Defined.

Lemma lower_ascii_dot (c : ascii) :
  Ascii.eqb (PyStr.lower_ascii c) "." = Ascii.eqb c ".".
Proof. destruct c as [[] [] [] [] [] [] [] []]; reflexivity. Qed.

Lemma has_dot_lower (s : string) : has_dot (PyStr.lower s) = has_dot s.
Proof.
  induction s as [|c s IH]; simpl; [reflexivity|].
  rewrite lower_ascii_dot, IH. reflexivity.
Qed.

Lemma endswith_has_dot (s x : string) :
  PyStr.endswith s x = true -> has_dot x = true -> has_dot s = true.
Proof.
  induction s as [|c s IH]; cbn [PyStr.endswith]; intros H Hx.
  - rewrite orb_false_r in H. apply String.eqb_eq in H. subst x. exact Hx.
  - destruct (String.eqb (String c s) x) eqn:E.
    + apply String.eqb_eq in E. subst x. exact Hx.
    + simpl in H |- *. rewrite (IH H Hx). apply orb_true_r.
Qed.

Lemma default_suffixes_have_dot :
  forallb (forallb has_dot) default_suffixes = true.
Proof. vm_compute. reflexivity. Qed.

(** X12. With the default registry a name without a dot, the empty name
    included, is always classified "other": every specific rule asks for a
    dot. *)
Theorem name_without_dot_is_other (f : string) :
  has_dot f = false -> determine_file_type imported f = Ok "other".
Proof.
  intros Hdot.
  apply (determine_file_type_miss imported (take 11 default_filetypes)
           ("other", "Binary", fun _ => true)); [reflexivity|].
  pose proof default_suffixes_have_dot as Hall.
  rewrite forallb_forall in Hall.
  generalize default_tests_ends_in. revert Hall.
  generalize (take 11 default_filetypes), default_suffixes.
  intros fts sfxs Hall HF2.
  induction HF2 as [|ft sfx l k H _ IH]; constructor.
  - unfold rejects. rewrite H.
    destruct (ends_in sfx f) eqn:Hacc; [|reflexivity].
    unfold ends_in in Hacc. apply existsb_exists in Hacc as (x & Hx & Hend).
    specialize (Hall sfx ltac:(left; reflexivity)).
    rewrite forallb_forall in Hall.
    pose proof (endswith_has_dot _ x Hend (Hall x Hx)) as Hd.
    rewrite has_dot_lower, Hdot in Hd. discriminate.
  - apply IH. intros s Hs. apply Hall. right. exact Hs.
Qed.

Lemma name_without_dot_is_other_witness :
  determine_file_type imported "README" = Ok "other".
Proof. apply name_without_dot_is_other. reflexivity. Defined.

End DefaultRules.

(* ===================================================================== *)
(** ** Category paths                                                     *)
(* ===================================================================== *)

Section CategoryPaths.

Lemma category_induction (P : Category.t -> Prop) :
  (forall title slug, P (Category.Build title None slug)) ->
  (forall title p slug, P p -> P (Category.Build title (Some p) slug)) ->
  forall c, P c.
Proof.
  intros Hroot Hchild. fix IH 1.
  intros [title [p|] slug]; [apply Hchild, IH | apply Hroot].
Qed.

Lemma path_list_last (c : Category.t) : last (Category.path_list c) = Some c.
Proof.
  destruct c as [title [p|] slug]; simpl; [apply last_snoc | reflexivity].
Qed.

Lemma path_list_nonempty (c : Category.t) : Category.path_list c <> [].
Proof.
  intros H. pose proof (path_list_last c) as Hl. rewrite H in Hl. discriminate.
Qed.

(** X13. [path_list] is the chain from the root ancestor down to the
    category itself: it has one entry per level, starts with the ancestor
    that has no parent, ends with the category, and each entry is the
    parent of the next. *)
Theorem path_list_is_ancestor_chain (c : Category.t) :
  length (Category.path_list c) = S (category_depth c)
  /\ head (Category.path_list c) = Some (category_root c)
  /\ Category.parent (category_root c) = None
  /\ last (Category.path_list c) = Some c
  /\ (forall i a b,
         Category.path_list c !! i = Some a ->
         Category.path_list c !! S i = Some b ->
         Category.parent b = Some a).
Proof.
  induction c as [title slug | title p slug IH] using category_induction.
  - simpl. repeat split; try reflexivity.
    intros i a b _ Hb. destruct i; discriminate.
  - destruct IH as (Hlen & Hhead & Hroot & Hlast & Hchain).
    simpl. repeat split.
    + rewrite length_app, Hlen. simpl. lia.
    + destruct (Category.path_list p) as [|x l] eqn:Hl;
        [discriminate Hhead | exact Hhead].
    + exact Hroot.
    + apply last_snoc.
    + intros i a b Ha Hb.
      destruct (decide (S i < length (Category.path_list p))%nat) as [Hlt|Hge].
      * rewrite lookup_app_l in Ha by lia. rewrite lookup_app_l in Hb by lia.
        eapply Hchain; eassumption.
      * assert (S i = length (Category.path_list p)) as Hi.
        { apply lookup_lt_Some in Hb. rewrite length_app in Hb. simpl in Hb. lia. }
        rewrite lookup_app_l in Ha by lia.
        rewrite lookup_app_r in Hb by lia.
        rewrite Hi, Nat.sub_diag in Hb. injection Hb as <-.
        rewrite last_lookup in Hlast. rewrite <- Hi in Hlast. simpl in Hlast.
        rewrite Hlast in Ha. injection Ha as <-. reflexivity.
Qed.

Lemma path_list_is_ancestor_chain_witness :
  Category.parent
    (Category.Build "Holidays" (Some (Category.Build "Photos" None "photos"))
       "holidays")
  = Some (Category.Build "Photos" None "photos").
Proof.
  apply (proj2 (proj2 (proj2 (proj2
           (path_list_is_ancestor_chain
              (Category.Build "Holidays"
                 (Some (Category.Build "Photos" None "photos")) "holidays")))))
           0%nat); reflexivity.
Defined.

Lemma string_app_assoc (a b c : string) :
  ((a ++ b) ++ c = a ++ (b ++ c))%string.
Proof.
  induction a as [|x a IH]; [reflexivity|].
  change (String x ((a ++ b) ++ c) = String x (a ++ (b ++ c)))%string.
  rewrite IH. reflexivity.
Qed.

Lemma join_snoc (sep : string) (l : list string) (x : string) :
  l <> [] ->
  PyStr.join sep (l ++ [x]) = (PyStr.join sep l ++ sep ++ x)%string.
Proof.
  induction l as [|a [|b l] IH]; intros Hne; [contradiction|reflexivity|].
  change (PyStr.join sep ((a :: b :: l) ++ [x]))
    with (a ++ sep ++ PyStr.join sep ((b :: l) ++ [x]))%string.
  rewrite IH by discriminate.
  change (PyStr.join sep (a :: b :: l))
    with (a ++ sep ++ PyStr.join sep (b :: l))%string.
  rewrite !string_app_assoc. reflexivity.
Qed.

(** X14. The path of a category without parent is its title; the path of
    any other category is the path of its parent, " - " and its title. For
    the two levels the model field allows this is "parent - child". *)
Theorem path_extends_parent_path (title slug : string) (p : Category.t) :
  Category.path (Category.Build title None slug) = title
  /\ Category.path (Category.Build title (Some p) slug)
     = (Category.path p ++ " - " ++ title)%string
  /\ (Category.parent p = None ->
      Category.path (Category.Build title (Some p) slug)
      = (Category.title p ++ " - " ++ title)%string).
Proof.
  assert (Category.path (Category.Build title (Some p) slug)
          = (Category.path p ++ " - " ++ title)%string) as Hstep.
  { unfold Category.path. simpl. rewrite map_app. simpl.
    apply join_snoc. intros H. apply map_eq_nil in H.
    exact (path_list_nonempty p H). }
  split; [reflexivity|]. split; [exact Hstep|].
  intros Hroot. rewrite Hstep.
  destruct p as [t [q|] sl]; [discriminate Hroot | reflexivity].
Qed.

Lemma path_extends_parent_path_witness :
  Category.path
    (Category.Build "Holidays" (Some (Category.Build "Photos" None "photos"))
       "holidays")
  = "Photos - Holidays".
Proof.
  apply (proj2 (proj2 (path_extends_parent_path "Holidays" "holidays"
                         (Category.Build "Photos" None "photos")))).
  reflexivity.
Defined.

End CategoryPaths.

(* ===================================================================== *)
(** ** The display name of a media file                                   *)
(* ===================================================================== *)

Section DisplayName.
Import MediaFileBase.

Lemma has_slash_app (a b : string) :
  PosixPath.has_slash (a ++ b) = PosixPath.has_slash a || PosixPath.has_slash b.
Proof.
  induction a as [|c a IH]; [reflexivity|].
  change (PosixPath.has_slash (String c (a ++ b))
          = PosixPath.has_slash (String c a) || PosixPath.has_slash b)%string.
  simpl. rewrite IH, orb_assoc. reflexivity.
Qed.

Lemma basename_no_slash (p : string) :
  PosixPath.has_slash (PosixPath.basename p) = false.
Proof.
  induction p as [|c p IH]; simpl; [reflexivity|].
  destruct (PosixPath.has_slash p) eqn:Hp; [exact IH|].
  destruct (Ascii.eqb c "/") eqn:Hc; [exact Hp|].
  simpl. rewrite Hc, Hp. reflexivity.
Qed.

Lemma basename_plain (p : string) :
  PosixPath.has_slash p = false -> PosixPath.basename p = p.
Proof.
  destruct p as [|c p]; simpl; [reflexivity|].
  intros H. apply orb_false_iff in H as [Hc Hp]. rewrite Hp, Hc. reflexivity.
Qed.

(** [os.path.basename] gives what follows the last slash: the result
    holds no slash, a name without slash is its own base name, and the base
    name of a directory, a slash and such a name is that name. *)
Theorem basename_after_last_slash (p : string) :
  PosixPath.has_slash (PosixPath.basename p) = false
  /\ (PosixPath.has_slash p = false -> PosixPath.basename p = p)
  /\ (forall dir base,
         PosixPath.has_slash base = false ->
         PosixPath.basename (dir ++ "/" ++ base) = base).
Proof.
  split; [apply basename_no_slash|]. split; [apply basename_plain|].
  intros dir base Hbase. induction dir as [|c dir IH].
  - change (PosixPath.basename (String "/" base) = base).
    simpl. rewrite Hbase. reflexivity.
  - change (PosixPath.basename (String c (dir ++ "/" ++ base)) = base)%string.
    cbn [PosixPath.basename]. rewrite has_slash_app.
    change (PosixPath.has_slash ("/" ++ base))
      with (Ascii.eqb "/" "/" || PosixPath.has_slash base).
    simpl. rewrite orb_true_r. exact IH.
Qed.

Lemma basename_after_last_slash_witness :
  PosixPath.basename ("medialibrary/2011/05" ++ "/" ++ "picture.jpg")
  = "picture.jpg".
Proof.
  apply (proj2 (proj2 (basename_after_last_slash ""))). reflexivity.
Defined.

Lemma rstrip_blank (s : string) : blank s = true -> PyStr.rstrip s = "".
Proof.
  induction s as [|c s IH]; simpl; [reflexivity|].
  intros H. apply andb_true_iff in H as [Hc Hs].
  rewrite (IH Hs), Hc. reflexivity.
Qed.

Lemma rstrip_not_blank (s : string) : blank s = false -> PyStr.rstrip s <> "".
Proof.
  induction s as [|c s IH]; simpl; [discriminate|].
  intros H. destruct (PyStr.rstrip s) eqn:Hr; [|discriminate].
  destruct (PyStr.is_space c); [|discriminate].
  simpl in H. exfalso. apply IH; [exact H | reflexivity].
Qed.

Lemma lstrip_blank (s : string) : blank (PyStr.lstrip s) = blank s.
Proof.
  induction s as [|c s IH]; simpl; [reflexivity|].
  destruct (PyStr.is_space c) eqn:Hc; [exact IH|].
  simpl. rewrite Hc. reflexivity.
Qed.

Lemma strip_truthy (s : string) :
  PyStr.truthy (PyStr.strip s) = negb (blank s).
Proof.
  unfold PyStr.truthy, PyStr.strip.
  destruct (blank s) eqn:Hb.
  - rewrite rstrip_blank by (rewrite lstrip_blank; exact Hb). reflexivity.
  - pose proof (rstrip_not_blank (PyStr.lstrip s)) as H.
    rewrite lstrip_blank in H. specialize (H Hb).
    destruct (PyStr.rstrip (PyStr.lstrip s)); [contradiction | reflexivity].
Qed.

(** X15. The display name of a media file is the caption of its
    translation when there is one and the caption is not blank, and the
    base name of the file otherwise: for a blank caption, a translation
    that is [None], does not exist, or whose lookup raises
    [AttributeError]. Any other exception of the lookup is raised. A
    caption is blank when it holds nothing but the white space that
    [unicode.strip()] removes; captions are taken among the texts whose
    characters lie below U+0100, where that white space is tab to carriage
    return, 0x1c to 0x1f, space, 0x85 and 0xa0. *)
Theorem unicode_is_caption_or_basename (translation : translation_lookup)
        (self : t) :
  (forall s, __unicode__ translation self = Ok s ->
             (exists trans, translation = Translation_is (Some trans)
                            /\ s = caption trans /\ blank s = false)
             \/ (s = PosixPath.basename (file_name self)
                 /\ PosixPath.has_slash s = false))
  /\ (forall trans, translation = Translation_is (Some trans) ->
                    __unicode__ translation self
                    = Ok (if blank (caption trans)
                          then PosixPath.basename (file_name self)
                          else caption trans))
  /\ (forall e, __unicode__ translation self = Raise e ->
                translation = Translation_raises e
                /\ Py.is_a e [AttributeError] = false).
Proof.
  assert (forall s, s = PosixPath.basename (file_name self) ->
                    s = PosixPath.basename (file_name self)
                    /\ PosixPath.has_slash s = false) as Hbase.
  { intros s ->. split; [reflexivity | apply basename_no_slash]. }
  unfold __unicode__, translation_unicode. split; [|split].
  - intros s. destruct translation as [[trans|]| |e].
    + rewrite strip_truthy. destruct (blank (caption trans)) eqn:Hb; simpl.
      * intros [= <-]. right. apply Hbase. reflexivity.
      * intros [= <-]. left. exists trans. auto.
    + intros [= <-]. right. apply Hbase. reflexivity.
    + intros [= <-]. right. apply Hbase. reflexivity.
    + destruct (Py.is_a e [AttributeError]); [|discriminate].
      intros [= <-]. right. apply Hbase. reflexivity.
  - intros trans ->. rewrite strip_truthy.
    destruct (blank (caption trans)); reflexivity.
  - intros e. destruct translation as [[trans|]| |e']; try discriminate.
    + destruct (PyStr.truthy _); discriminate.
    + destruct (Py.is_a e' [AttributeError]) eqn:He; [discriminate|].
      intros [= <-]. auto.
Qed.

Lemma unicode_is_caption_or_basename_witness :
  __unicode__
    (Translation_is (Some {| caption := "   "; description := "" |}))
    (Sample.stored "medialibrary/picture.jpg" "image" None)
  = Ok "picture.jpg"
  /\ __unicode__
       (Translation_is
          (Some {| caption := String (ascii_of_N 28) (String (ascii_of_N 160) "");
                   description := "" |}))
       (Sample.stored "medialibrary/picture.jpg" "image" None)
     = Ok "picture.jpg".
Proof.
  split.
  - apply (proj1 (proj2 (unicode_is_caption_or_basename
                           (Translation_is
                              (Some {| caption := "   "; description := "" |}))
                           (Sample.stored "medialibrary/picture.jpg" "image"
                              None)))
             {| caption := "   "; description := "" |}).
    reflexivity.
  - apply (proj1 (proj2 (unicode_is_caption_or_basename
                           (Translation_is
                              (Some {| caption := String (ascii_of_N 28)
                                                    (String (ascii_of_N 160) "");
                                       description := "" |}))
                           (Sample.stored "medialibrary/picture.jpg" "image"
                              None)))
             {| caption := String (ascii_of_N 28) (String (ascii_of_N 160) "");
                description := "" |}).
    reflexivity.
Defined.

End DisplayName.
